(** * fetch_mops: the match / dedup / notify pipeline of [scripts/fetch_mops.py]

    A shallow embedding of the script, function by function and under the
    names the script uses, followed by the properties of the pipeline.

    Conventions of the embedding.
    - A Python [str] is the list of its code points ([str := list N]);
      [py "..."] writes an ASCII literal. The code points are ones UTF-8
      encodes: lone surrogates, which a file opened with encoding "utf-8"
      refuses, are outside the model.
    - A value decoded from JSON is a [json]. Numbers are integers: values of
      type float are outside the model.
    - A file holding JSON text is the value the text stands for ([Doc]):
      [json.dump] writes it and [json.load] reads it back.
    - The text [str()] gives for a list or a dict quotes and escapes the
      strings inside with [str.__repr__]; that rendering belongs to the
      Python runtime and is the section variable [repr_seq].
    - Code that can raise returns an [outcome]; code that touches files or
      the push channels is a function of the [world].
    - The file system is the regular files by path and the directories
      made. A path is its text (POSIX, with the slash as separator): ".",
      ".." and doubled slashes are not resolved and there are no symbolic
      links, so two texts are two paths. [os.makedirs] and [open] raise as
      the layout of files and directories makes them raise (an empty
      directory part, a regular file where a directory is needed, a
      directory where a file is to be written); permissions, quotas and
      limits on the length of names are outside the model.
    - Console output ([print]) is not modelled. *)

From Stdlib Require Import Ascii String NArith ZArith Lia.
From stdpp Require Import base option list sorting gmap pretty.

Local Open Scope N_scope.

(** ** Python strings *)

Definition str : Type := list N.

Definition py (s : string) : str := N_of_ascii <$> list_ascii_of_string s.

(** [sep.join(parts)] *)
Fixpoint join (sep : str) (parts : list str) : str :=
  match parts with
  | [] => []
  | [p] => p
  | p :: rest => p ++ sep ++ join sep rest
  end.

(** [str(n)] for an integer. *)
Definition str_of_int (z : Z) : str := py (pretty z).

(** [f"{n:02d}"] *)
Definition fmt_02d (z : Z) : str :=
  if bool_decide (0 ≤ z < 10)%Z then py "0" ++ str_of_int z else str_of_int z.

(** The code points [str.isspace], [str.strip] and the regular expression
    class [\s] treat as white space. *)
Definition is_space (c : N) : bool :=
  (9 <=? c) && (c <=? 13) || (28 <=? c) && (c <=? 32)
  || (c =? 0x85) || (c =? 0xA0) || (c =? 0x1680)
  || (0x2000 <=? c) && (c <=? 0x200A)
  || (c =? 0x2028) || (c =? 0x2029) || (c =? 0x202F) || (c =? 0x205F)
  || (c =? 0x3000).

(** [s.lstrip()] generalised to any class of code points. *)
Fixpoint lstrip_by (drop : N → bool) (s : str) : str :=
  match s with
  | c :: t => if drop c then lstrip_by drop t else s
  | [] => []
  end.

Definition rstrip_by (drop : N → bool) (s : str) : str :=
  reverse (lstrip_by drop (reverse s)).

(** [s.strip()] *)
Definition strip (s : str) : str := rstrip_by is_space (lstrip_by is_space s).

(** [s.startswith(p)] *)
Fixpoint startswith (p s : str) : bool :=
  match p, s with
  | [], _ => true
  | a :: p', b :: s' => (a =? b) && startswith p' s'
  | _ :: _, [] => false
  end.

(** [k in s] on strings: [k] occurs in [s] as a contiguous block. *)
Fixpoint contains (k s : str) : bool :=
  startswith k s || match s with [] => false | _ :: t => contains k t end.

(** [s.replace(old, new)] for a non-empty [old]: occurrences are replaced
    from the left and do not overlap; [skip] counts the code points of an
    occurrence that are still to be dropped. *)
Fixpoint replace_from (old new : str) (skip : nat) (s : str) : str :=
  match s with
  | [] => []
  | c :: t =>
      match skip with
      | S k => replace_from old new k t
      | O => if startswith old s
             then new ++ replace_from old new (length old - 1) t
             else c :: replace_from old new 0 t
      end
  end.

Definition replace (old new s : str) : str := replace_from old new 0 s.

(** [re.sub(r"\s+", " ", s)]: every maximal run of white space becomes one
    space; [in_run] tells that the previous code point was white space. *)
Fixpoint sub_spaces (in_run : bool) (s : str) : str :=
  match s with
  | [] => []
  | c :: t =>
      if is_space c
      then (if in_run then sub_spaces true t else 32 :: sub_spaces true t)
      else c :: sub_spaces false t
  end.

Definition CR : str := [13].
Definition LF : str := [10].

Definition normalize_text (s : str) : str :=
  let s := replace CR LF (replace (CR ++ LF) LF s) in
  strip (sub_spaces false s).

(** ** Keyword matcher *)

(** [kws.sort(key=len, reverse=True)]: a stable sort, longest first; equal
    lengths keep the order of the file. The keywords are inserted from the
    last one backwards, each in front of the first entry that is not longer. *)
Fixpoint insert_by_len (k : str) (sorted : list str) : list str :=
  match sorted with
  | [] => [k]
  | h :: t => if (length h <=? length k)%nat then k :: sorted
              else h :: insert_by_len k t
  end.

Definition sort_by_len_desc (kws : list str) : list str :=
  foldr insert_by_len [] kws.

(** The loop of [load_keywords] over the lines of the file. *)
Fixpoint keyword_lines (lines : list str) (kws : list str) : list str :=
  match lines with
  | [] => kws
  | line :: rest =>
      let k := strip line in
      if negb (bool_decide (k = [])) && negb (startswith (py "#") k)
      then keyword_lines rest (kws ++ [k])
      else keyword_lines rest kws
  end.

Definition load_keywords_lines (lines : list str) : list str :=
  sort_by_len_desc (keyword_lines lines []).

Fixpoint match_keywords_from (subject : str) (keywords hits : list str) : list str :=
  match keywords with
  | [] => hits
  | k :: rest =>
      if contains k subject
      then match_keywords_from subject rest (hits ++ [k])
      else match_keywords_from subject rest hits
  end.

Definition match_keywords (subject : str) (keywords : list str) : list str :=
  match_keywords_from subject keywords [].

(** ** Values decoded from JSON, and the builtins applied to them *)

#[warnings="-register-all"]
Inductive json : Type :=
  | JNull
  | JBool (b : bool)
  | JInt (z : Z)
  | JStr (s : str)
  | JList (l : list json)
  | JDict (d : list (str * json)).

(** A dict is the list of its entries in insertion order; the keys of a
    Python dict are pairwise distinct. *)
Abbreviation dict := (list (str * json)).

(** [d.get(k)], with [None] when the key is missing. *)
Fixpoint dict_get (k : str) (d : dict) : option json :=
  match d with
  | [] => None
  | (k', v) :: rest => if bool_decide (k' = k) then Some v else dict_get k rest
  end.

Definition get_or_none (k : str) (d : dict) : json := default JNull (dict_get k d).

(** Truth value of an object, as [or], [if] and [not] test it. *)
Definition truthy (v : json) : bool :=
  match v with
  | JNull => false
  | JBool b => b
  | JInt z => negb (z =? 0)%Z
  | JStr s => negb (bool_decide (s = []))
  | JList l => negb (bool_decide (l = []))
  | JDict d => negb (bool_decide (d = []))
  end.

Inductive exn : Type :=
  | FileNotFoundError
  | FileExistsError
  | NotADirectoryError
  | IsADirectoryError
  | JSONDecodeError
  | AttributeError
  | TypeError
  | NameError
  | RequestException.

Inductive outcome (A : Type) : Type :=
  | Ok (a : A)
  | Raise (e : exn).
Arguments Ok {A} a.
Arguments Raise {A} e.

#[export] Instance outcome_ret : MRet outcome := λ A a, Ok a.
#[export] Instance outcome_bind : MBind outcome := λ A B k c,
  match c with
  | Ok a => k a
  | Raise e => Raise e
  end.

(** [v.get(k, dflt)]: only a dict has the method. *)
Definition attr_get (v : json) (k : str) (dflt : json) : outcome json :=
  match v with
  | JDict d => Ok (default dflt (dict_get k d))
  | _ => Raise AttributeError
  end.

(** What [for x in v] and [set(v)] iterate over. *)
Definition iterate (v : json) : outcome (list json) :=
  match v with
  | JList l => Ok l
  | JStr s => Ok ((λ c, JStr [c]) <$> s)
  | JDict d => Ok ((λ kv, JStr kv.1) <$> d)
  | JNull | JBool _ | JInt _ => Raise TypeError
  end.

(** *** Sets of hashable values

    The ledger is a Python set. Its string members are the [gset] [strs];
    members of any other hashable type (None, booleans, integers) are
    [others], kept in insertion order and distinct up to [==]. A string is
    never equal to a member of another type. *)
Record pyset : Type := PySet { strs : gset str; others : list json }.

Definition num_of (v : json) : option Z :=
  match v with
  | JBool b => Some (Z.b2z b)
  | JInt z => Some z
  | _ => None
  end.

(** [a == b] for values that are not strings, lists or dicts. *)
Definition scalar_eqb (a b : json) : bool :=
  match a, b with
  | JNull, JNull => true
  | _, _ => match num_of a, num_of b with
            | Some x, Some y => (x =? y)%Z
            | _, _ => false
            end
  end.

(** [s.add(v)]; lists and dicts are unhashable. *)
Definition set_add (v : json) (s : pyset) : outcome pyset :=
  match v with
  | JStr k => Ok (PySet ({[k]} ∪ strs s) (others s))
  | JList _ | JDict _ => Raise TypeError
  | _ => Ok (if existsb (scalar_eqb v) (others s) then s
             else PySet (strs s) (others s ++ [v]))
  end.

Fixpoint set_add_all (vs : list json) (s : pyset) : outcome pyset :=
  match vs with
  | [] => Ok s
  | v :: rest => s' ← set_add v s; set_add_all rest s'
  end.

(** [set(v)] *)
Definition py_set (v : json) : outcome pyset :=
  vs ← iterate v; set_add_all vs (PySet ∅ []).

(** [a <= b] on strings: lexicographic on code points. *)
Fixpoint str_leb (a b : str) : bool :=
  match a, b with
  | [], _ => true
  | _ :: _, [] => false
  | x :: a', y :: b' => (x <? y) || (x =? y) && str_leb a' b'
  end.

Definition num_leb (a b : json) : bool :=
  match num_of a, num_of b with
  | Some x, Some y => (x <=? y)%Z
  | _, _ => false
  end.

(** [sorted(s)]. The members of a set are pairwise different, so the result
    does not depend on the sorting algorithm. Strings do not compare with
    the other types, and None compares with nothing. *)
Definition sorted_set (s : pyset) : outcome (list json) :=
  match others s with
  | [] => Ok (JStr <$> merge_sort (λ a b, str_leb a b) (elements (strs s)))
  | [o] => if bool_decide (strs s = ∅) then Ok [o] else Raise TypeError
  | os => if bool_decide (strs s = ∅) && forallb (λ o, bool_decide (is_Some (num_of o))) os
          then Ok (merge_sort (λ a b, num_leb a b) os)
          else Raise TypeError
  end.

(** ** The world: files and push channels *)

(** A cell of the CSV file: the value [csv] writes with [str()], or the
    text [json.dumps] gives for a value. *)
Inductive cell : Type :=
  | Cell (v : json)
  | CellJson (v : json).

(** What a file holds: the JSON text of a value, a CSV table, or [Torn],
    the content of a file that was opened for writing (and so truncated)
    and whose writing did not complete. *)
Inductive file : Type :=
  | Doc (v : json)
  | Table (fieldnames : list str) (rows : list (list (str * cell)))
  | Torn.

Inductive channel : Type := Telegram | Line.

Record push : Type := Push {
  chan : channel;
  credential : str;
  recipient : str;
  text : str
}.

(** The regular files by path, the directories [os.makedirs] has made, and
    the pushes sent. A path under which a file lies is a directory too,
    whether [dirs] lists it or not. *)
Record world : Type := World {
  files : gmap str file;
  dirs : gset str;
  pushed : list push
}.

(** A computation on the world that may raise; what it wrote before
    raising stays written. *)
Definition M (A : Type) : Type := world → outcome A * world.

#[export] Instance M_ret : MRet M := λ A a w, (Ok a, w).
#[export] Instance M_bind : MBind M := λ A B k c w,
  match c w with
  | (Ok a, w') => k a w'
  | (Raise e, w') => (Raise e, w')
  end.

Definition lift {A} (c : outcome A) : M A := λ w, (c, w).

(** [os.path.dirname] (POSIX). *)
Definition is_slash (c : N) : bool := c =? 47.

Definition dirname (p : str) : str :=
  let head := rstrip_by (λ c, negb (is_slash c)) p in
  if forallb is_slash head then head else rstrip_by is_slash head.

(** A directory and the directories above it, up to the root or to the
    working directory: what [os.makedirs] walks through. *)
Fixpoint dir_chain (fuel : nat) (d : str) : list str :=
  match fuel with
  | O => []
  | S fuel =>
      if bool_decide (d = []) then []
      else d :: (if bool_decide (dirname d = d) then [] else dir_chain fuel (dirname d))
  end.

Definition made (d : str) : list str := dir_chain (S (length d)) d.

(** The directories a path lies under. *)
Definition parents (p : str) : list str := made (dirname p).

Definition ends_with_slash (p : str) : bool :=
  match last p with
  | Some c => is_slash c
  | None => false
  end.

Definition is_root (p : str) : bool :=
  negb (bool_decide (p = [])) && forallb is_slash p.

Definition is_file (p : str) (w : world) : bool :=
  bool_decide (is_Some (files w !! p)).

(** [os.path.isdir], for a path that does not end in a slash (or is the
    root). *)
Definition is_directory (p : str) (w : world) : bool :=
  is_root p || bool_decide (p ∈ dirs w)
  || bool_decide (set_Exists (λ q, p ∈ parents q) (dom (files w))).

(** The path without the slashes it ends in. *)
Definition trim_slashes (p : str) : str :=
  if forallb is_slash p then p else rstrip_by is_slash p.

(** [os.path.exists]: a regular file, or a directory, which a path names
    with or without slashes at its end. *)
Definition path_exists (p : str) (w : world) : bool :=
  is_file p w || negb (bool_decide (p = [])) && is_directory (trim_slashes p) w.

(** The file-system calls of the script. *)
Inductive fs_op : Type :=
  | MakeDirs (dir : str)
  | OpenW (path : str)
  | JsonDump (path : str) (obj : json)
  | CsvWrite (path : str) (fieldnames : list str) (rows : list (list (str * cell))).

Definition set_file (path : str) (f : file) (w : world) : world :=
  World (<[path := f]> (files w)) (dirs w) (pushed w).

Definition add_dirs (ds : list str) (w : world) : world :=
  World (files w) (list_to_set ds ∪ dirs w) (pushed w).

(** [os.makedirs(dir, exist_ok=True)] raises on the empty path, which is
    what [dirname] gives for a path without a directory part; it raises
    when a directory above [dir] is a regular file, and when [dir] itself
    is one. Nothing is made when it raises. *)
Definition makedirs_error (dir : str) (w : world) : option exn :=
  match made dir with
  | [] => Some FileNotFoundError
  | _ :: above =>
      if existsb (λ a, is_file a w) above then Some NotADirectoryError
      else if is_file dir w then Some FileExistsError
      else None
  end.

(** [open(path, "w")], which the script calls once [os.makedirs] has made
    the directory part of [path]: it raises when [path] ends in a slash or
    names a directory. *)
Definition open_error (path : str) (w : world) : option exn :=
  if bool_decide (path = []) then Some FileNotFoundError
  else if ends_with_slash path || is_directory path w then Some IsADirectoryError
  else None.

(** Opening a file with mode "w" truncates it; the dump then writes the
    whole text. *)
Definition exec_op (op : fs_op) : M () := λ w,
  match op with
  | MakeDirs dir =>
      match makedirs_error dir w with
      | Some x => (Raise x, w)
      | None => (Ok (), add_dirs (made dir) w)
      end
  | OpenW path =>
      match open_error path w with
      | Some x => (Raise x, w)
      | None => (Ok (), set_file path Torn w)
      end
  | JsonDump path obj => (Ok (), set_file path (Doc obj) w)
  | CsvWrite path fieldnames rows => (Ok (), set_file path (Table fieldnames rows) w)
  end.

Fixpoint exec_ops (ops : list fs_op) : M () :=
  match ops with
  | [] => mret ()
  | op :: rest => exec_op op;; exec_ops rest
  end.

Definition save_json_ops (path : str) (obj : json) : list fs_op :=
  [MakeDirs (dirname path); OpenW path; JsonDump path obj].

Definition save_json (path : str) (obj : json) : M () :=
  exec_ops (save_json_ops path obj).

Definition save_csv_ops (path : str) (rows : list (list (str * cell)))
    (fieldnames : list str) : list fs_op :=
  [MakeDirs (dirname path); OpenW path; CsvWrite path fieldnames rows].

Definition save_csv (path : str) (rows : list (list (str * cell)))
    (fieldnames : list str) : M () :=
  exec_ops (save_csv_ops path rows fieldnames).

(** [json.load] parses the text of a [Doc]. The header line of a CSV table
    does not parse, and neither does the text of a torn file: the script
    dumps dicts only, and no proper prefix of the text of a dict is JSON.
    A path that exists and is not a regular file is a directory, which
    [open] refuses. *)
Definition load_state (state_path : str) : M json := λ w,
  if negb (path_exists state_path w)
  then (Ok (JDict [(py "seen_keys", JList [])]), w)
  else match files w !! state_path with
       | Some (Doc v) => (Ok v, w)
       | Some (Table _ _) | Some Torn => (Raise JSONDecodeError, w)
       | None => (Raise IsADirectoryError, w)
       end.

(** ** Paths that can be written *)

(** A path [save_json] and [save_csv] can write: it has a directory part
    and does not end in a slash, no directory above it is a regular file,
    and it is not itself a directory. *)
Definition writable (p : str) (w : world) : bool :=
  negb (bool_decide (dirname p = [])) && negb (ends_with_slash p)
  && forallb (λ a, negb (is_file a w)) (parents p)
  && negb (is_directory p w).

(** The world once a file is written at a path that can be written. *)
Definition saved (p : str) (f : file) (w : world) : world :=
  set_file p f (add_dirs (parents p) w).

(** What the save of a path that cannot be written raises, and the world
    it leaves: the directories are made when it is the open that raises. *)
Definition refusal (p : str) (w : world) : exn * world :=
  match makedirs_error (dirname p) w with
  | Some x => (x, w)
  | None =>
      (default IsADirectoryError (open_error p (add_dirs (parents p) w)),
       add_dirs (parents p) w)
  end.

(** Neither path lies under the other. *)
Definition apart (p q : str) : bool :=
  negb (bool_decide (p ∈ parents q)) && negb (bool_decide (q ∈ parents p)).

(** ** What a run reads from outside *)

Record datetime : Type := DateTime {
  year : Z; month : Z; day : Z;
  hour : Z; minute : Z; second : Z
}.

(** 民國年 = 西元年 - 1911 *)
Definition roc_year (dt : datetime) : Z := year dt - 1911.

(** [dt.strftime("%Y-%m-%d %H:%M:%S")], for a year of four digits. *)
Definition strftime (dt : datetime) : str :=
  str_of_int (year dt) ++ py "-" ++ fmt_02d (month dt) ++ py "-" ++ fmt_02d (day dt)
  ++ py " " ++ fmt_02d (hour dt) ++ py ":" ++ fmt_02d (minute dt) ++ py ":"
  ++ fmt_02d (second dt).

(** The surroundings of one run. [text_files] gives the lines of the text
    files on disk (the keyword file is not a file the run writes);
    [list_api] and [detail_api] are the two upstream endpoints as functions
    of the posted payload, [None] when the request fails, answers with an
    error status or with a body that is not JSON; [delivers] tells whether
    a push request to a channel succeeds. *)
Record env : Type := Env {
  text_files : str → option (list str);
  now_tw : datetime;
  list_api : json → option json;
  detail_api : json → option json;
  environ : str → option str;
  delivers : channel → bool
}.

(** The command line. *)
Record args : Type := Args {
  keywords : str;
  out_json : str;
  out_csv : str;
  state : str
}.

Definition load_keywords (e : env) (path : str) : outcome (list str) :=
  match text_files e path with
  | None => Raise FileNotFoundError
  | Some lines => Ok (load_keywords_lines lines)
  end.

Definition http_post_json (api : json → option json) (payload : json) : outcome json :=
  match api payload with
  | Some r => Ok r
  | None => Raise RequestException
  end.

(** [os.getenv(name, "")] *)
Definition getenv (e : env) (name : str) : str := default [] (environ e name).

(** Both notifiers return at once when a credential or the recipient is
    empty; otherwise they post, and a failed post raises. *)
Definition post_push (e : env) (c : channel) (cred to text : str) : M () := λ w,
  if bool_decide (cred = []) || bool_decide (to = []) then (Ok (), w)
  else if delivers e c
       then (Ok (), World (files w) (dirs w) (pushed w ++ [Push c cred to text]))
       else (Raise RequestException, w).

Definition telegram_notify (e : env) (token chat_id text : str) : M () :=
  post_push e Telegram token chat_id text.

Definition line_push (e : env) (channel_access_token to text : str) : M () :=
  post_push e Line channel_access_token to text.

(** The three paths of a run can be written, and none of them lies under
    another. *)
Definition writable_paths (a : args) (w : world) : bool :=
  writable (out_json a) w && writable (out_csv a) w && writable (state a) w
  && apart (out_json a) (out_csv a) && apart (out_json a) (state a)
  && apart (out_csv a) (state a).

(** [try: c  except Exception: print(...)] *)
Definition swallow (c : M ()) : M () := λ w,
  match c w with
  | (Raise _, w') => (Ok (), w')
  | r => r
  end.

(** ** Matched items *)

Record item : Type := Item {
  key : str;
  speech_date : str;
  speech_time : str;
  company_id : str;
  company_name : str;
  subject : str;
  matched_keywords : list str;
  detail_params : dict;
  detail : json;
  fetched_at_tw : str
}.

(** The item as the dict the script builds. *)
Definition item_json (it : item) : json :=
  JDict [ (py "key", JStr (key it));
          (py "speech_date", JStr (speech_date it));
          (py "speech_time", JStr (speech_time it));
          (py "company_id", JStr (company_id it));
          (py "company_name", JStr (company_name it));
          (py "subject", JStr (subject it));
          (py "matched_keywords", JList (JStr <$> matched_keywords it));
          (py "detail_params", JDict (detail_params it));
          (py "detail", detail it);
          (py "fetched_at_tw", JStr (fetched_at_tw it)) ].

Definition csv_fieldnames : list str :=
  [ py "key"; py "speech_date"; py "speech_time"; py "company_id"; py "company_name";
    py "subject"; py "matched_keywords"; py "enterDate"; py "marketKind";
    py "serialNumber"; py "detail_json"; py "fetched_at_tw" ].

Definition csv_row (it : item) : list (str * cell) :=
  [ (py "key", Cell (JStr (key it)));
    (py "speech_date", Cell (JStr (speech_date it)));
    (py "speech_time", Cell (JStr (speech_time it)));
    (py "company_id", Cell (JStr (company_id it)));
    (py "company_name", Cell (JStr (company_name it)));
    (py "subject", Cell (JStr (subject it)));
    (py "matched_keywords", Cell (JStr (join (py "|") (matched_keywords it))));
    (py "enterDate", Cell (get_or_none (py "enterDate") (detail_params it)));
    (py "marketKind", Cell (get_or_none (py "marketKind") (detail_params it)));
    (py "serialNumber", Cell (get_or_none (py "serialNumber") (detail_params it)));
    (py "detail_json", CellJson (detail it));
    (py "fetched_at_tw", Cell (JStr (fetched_at_tw it))) ].

(** The digest sent to the push channels: a header, a line for each of the
    first ten new items, and a count of the rest. *)
Definition digest_line (it : item) : str :=
  py "- " ++ company_id it ++ py " " ++ company_name it ++ py " " ++ speech_time it
  ++ py " " ++ subject it ++ [0xFF08] ++ join (py ",") (matched_keywords it) ++ [0xFF09].

Definition digest (new_matched_items : list item) (speech_date : str) : str :=
  let n := Z.of_nat (length new_matched_items) in
  let lines :=
    [ [0x1F4E3] ++ py " MOPS " ++ [0x65B0; 0x516C; 0x544A; 0x547D; 0x4E2D] ++ py " "
      ++ str_of_int n ++ py " " ++ [0x7B46; 0xFF08] ++ speech_date ++ [0xFF09] ] in
  let lines := lines ++ (digest_line <$> take 10 new_matched_items) in
  let lines :=
    if (10 <? n)%Z
    then lines ++ [ py "... " ++ [0x53E6; 0x6709] ++ py " " ++ str_of_int (n - 10)
                    ++ py " " ++ [0x7B46] ]
    else lines in
  join LF lines.

(** ** The ledger, as [main] reads and writes it *)

(** Lines 131 and 132 of the script: the set of seen keys loaded from the
    state file. *)
Definition load_seen_keys (state_path : str) : M pyset :=
  state_doc ← load_state state_path;
  listed ← lift (attr_get state_doc (py "seen_keys") (JList []));
  lift (py_set listed).

(** Line 224: the set saved as a sorted list. *)
Definition save_seen_keys (state_path : str) (seen_keys : pyset) : M () :=
  sorted_keys ← lift (sorted_set seen_keys);
  save_json state_path (JDict [(py "seen_keys", JList sorted_keys)]).

(** The world in which a run of file-system calls is cut short after its
    first [n] calls. *)
Definition crash_after (n : nat) (ops : list fs_op) (w : world) : world :=
  (exec_ops (take n ops) w).2.

(** The file a call writes to. *)
Definition op_target (op : fs_op) : option str :=
  match op with
  | MakeDirs _ => None
  | OpenW path | JsonDump path _ | CsvWrite path _ _ => Some path
  end.

(** ** The pipeline *)

(** The state of the loop over the rows: the two lists being built, and the
    variable [speech_date], which the digest reads after the loop. *)
Record loop_state : Type := LoopState {
  matched_items : list item;
  new_matched_items : list item;
  last_speech_date : option str
}.

(** [for it in matched_items: seen_keys.add(it["key"])] *)
Fixpoint add_keys (its : list item) (seen_keys : pyset) : pyset :=
  match its with
  | [] => seen_keys
  | it :: rest => add_keys rest (PySet ({[key it]} ∪ strs seen_keys) (others seen_keys))
  end.

Section Runtime.

(** The text [str()] gives for a list or a dict. *)
Variable repr_seq : json → str.

(** [str(v)], which is also what an f-string field writes. *)
Definition py_str (v : json) : str :=
  match v with
  | JNull => py "None"
  | JBool true => py "True"
  | JBool false => py "False"
  | JInt z => str_of_int z
  | JStr s => s
  | JList _ | JDict _ => repr_seq v
  end.

(** 用 detail parameters 做唯一鍵，避免同一筆重複通知 *)
Definition build_item_key (params : dict) : str :=
  py_str (get_or_none (py "enterDate") params) ++ py "|"
  ++ py_str (get_or_none (py "marketKind") params) ++ py "|"
  ++ py_str (get_or_none (py "companyId") params) ++ py "|"
  ++ py_str (get_or_none (py "serialNumber") params).

(** The body of the loop for one row. A row that is not a list of at least
    six entries is passed over; so is a row whose "parameters" is true
    and not a dict, after [speech_date] has been assigned. *)
Definition row_step (e : env) (kws : list str) (seen_keys : pyset)
    (row : json) (st : loop_state) : outcome loop_state :=
  match row with
  | JList (r0 :: r1 :: r2 :: r3 :: r4 :: r5 :: _) =>
      let speech_date := normalize_text (py_str r0) in
      let speech_time := normalize_text (py_str r1) in
      let company_id := normalize_text (py_str r2) in
      let company_name := normalize_text (py_str r3) in
      let subject_raw := py_str r4 in
      let subject := normalize_text subject_raw in
      let detail_meta := match r5 with JDict d => d | _ => [] end in
      let parameters := get_or_none (py "parameters") detail_meta in
      let params := if truthy parameters then parameters else JDict [] in
      let st := LoopState (matched_items st) (new_matched_items st) (Some speech_date) in
      match params with
      | JDict params =>
          let hits := match_keywords subject kws in
          if bool_decide (hits = []) then Ok st
          else
            let key := build_item_key params in
            detail ← http_post_json (detail_api e) (JDict params);
            let item := Item key speech_date speech_time company_id company_name
                             subject hits params detail (strftime (now_tw e)) in
            Ok (LoopState (matched_items st ++ [item])
                          (if bool_decide (key ∈ strs seen_keys)
                           then new_matched_items st
                           else new_matched_items st ++ [item])
                          (last_speech_date st))
      | _ => Ok st
      end
  | _ => Ok st
  end.

Fixpoint rows_loop (e : env) (kws : list str) (seen_keys : pyset)
    (data : list json) (st : loop_state) : outcome loop_state :=
  match data with
  | [] => Ok st
  | row :: rest =>
      st' ← row_step e kws seen_keys row st;
      rows_loop e kws seen_keys rest st'
  end.

(** The notification step: nothing is sent when there is no new item. *)
Definition notify (e : env) (st : loop_state) : M () :=
  if bool_decide (new_matched_items st = []) then mret ()
  else
    speech_date ← lift (match last_speech_date st with
                        | Some d => Ok d
                        | None => Raise NameError
                        end);
    let msg := digest (new_matched_items st) speech_date in
    let telegram_token := getenv e (py "TELEGRAM_BOT_TOKEN") in
    let telegram_chat_id := getenv e (py "TELEGRAM_CHAT_ID") in
    let line_token := getenv e (py "LINE_CHANNEL_ACCESS_TOKEN") in
    let line_to := getenv e (py "LINE_TO") in
    swallow (telegram_notify e telegram_token telegram_chat_id msg);;
    swallow (line_push e line_token line_to msg).

(** [main], returning the two lists it built: [matched_items] and
    [new_matched_items]. *)
Definition main (e : env) (a : args) : M (list item * list item) :=
  kws ← lift (load_keywords e (keywords a));
  let now_tw := now_tw e in
  let y := str_of_int (roc_year now_tw) in
  let m := str_of_int (month now_tw) in
  let d := fmt_02d (day now_tw) in
  let list_payload :=
    JDict [(py "year", JStr y); (py "month", JStr m); (py "day", JStr d)] in
  list_json ← lift (http_post_json (list_api e) list_payload);
  result ← lift (attr_get list_json (py "result") (JDict []));
  data ← lift (attr_get result (py "data") (JList []));
  let data := if truthy data then data else JList [] in
  state_doc ← load_state (state a);
  listed ← lift (attr_get state_doc (py "seen_keys") (JList []));
  seen_keys ← lift (py_set listed);
  rows ← lift (iterate data);
  st ← lift (rows_loop e kws seen_keys rows (LoopState [] [] None));
  let seen_keys := add_keys (matched_items st) seen_keys in
  save_json (out_json a)
    (JDict [ (py "meta",
              JDict [ (py "run_at_tw", JStr (strftime now_tw));
                      (py "query",
                       JDict [(py "year", JStr y); (py "month", JStr m); (py "day", JStr d)]);
                      (py "keywords", JList (JStr <$> kws));
                      (py "matched_count", JInt (Z.of_nat (length (matched_items st))));
                      (py "new_matched_count",
                       JInt (Z.of_nat (length (new_matched_items st)))) ]);
             (py "items", JList (item_json <$> matched_items st)) ]);;
  save_csv (out_csv a) (csv_row <$> matched_items st) csv_fieldnames;;
  sorted_keys ← lift (sorted_set seen_keys);
  save_json (state a) (JDict [(py "seen_keys", JList sorted_keys)]);;
  notify e st;;
  mret (matched_items st, new_matched_items st).

(** *** The run in two parts

    Nothing is written before the loop over the rows has ended, so a run is a
    computation of what to write ([plan]) followed by the writes and the
    pushes ([commit]). *)

(** The listing of the day, lines 120 to 129. *)
Definition listing (e : env) : outcome json :=
  let now_tw := now_tw e in
  let y := str_of_int (roc_year now_tw) in
  let m := str_of_int (month now_tw) in
  let d := fmt_02d (day now_tw) in
  let list_payload :=
    JDict [(py "year", JStr y); (py "month", JStr m); (py "day", JStr d)] in
  list_json ← http_post_json (list_api e) list_payload;
  result ← attr_get list_json (py "result") (JDict []);
  data ← attr_get result (py "data") (JList []);
  Ok (if truthy data then data else JList []).

(** What a run works on: the keywords, the ledger as loaded and the rows of
    the listing. *)
Definition run_inputs (e : env) (a : args) (w : world)
    : outcome (list str * pyset * list json) :=
  kws ← load_keywords e (keywords a);
  data ← listing e;
  seen_keys ← (load_seen_keys (state a) w).1;
  rows ← iterate data;
  Ok (kws, seen_keys, rows).

Definition plan (e : env) (a : args) (w : world)
    : outcome (list str * pyset * loop_state) :=
  '(kws, seen_keys, rows) ← run_inputs e a w;
  st ← rows_loop e kws seen_keys rows (LoopState [] [] None);
  Ok (kws, seen_keys, st).

Definition out_doc (e : env) (kws : list str) (st : loop_state) : json :=
  let now_tw := now_tw e in
  let y := str_of_int (roc_year now_tw) in
  let m := str_of_int (month now_tw) in
  let d := fmt_02d (day now_tw) in
  JDict [ (py "meta",
           JDict [ (py "run_at_tw", JStr (strftime now_tw));
                   (py "query",
                    JDict [(py "year", JStr y); (py "month", JStr m); (py "day", JStr d)]);
                   (py "keywords", JList (JStr <$> kws));
                   (py "matched_count", JInt (Z.of_nat (length (matched_items st))));
                   (py "new_matched_count",
                    JInt (Z.of_nat (length (new_matched_items st)))) ]);
          (py "items", JList (item_json <$> matched_items st)) ].

Definition commit (e : env) (a : args) (kws : list str) (seen_keys : pyset)
    (st : loop_state) : M (list item * list item) :=
  save_json (out_json a) (out_doc e kws st);;
  save_csv (out_csv a) (csv_row <$> matched_items st) csv_fieldnames;;
  save_seen_keys (state a) (add_keys (matched_items st) seen_keys);;
  notify e st;;
  mret (matched_items st, new_matched_items st).

(** What the loop does with one row: [None] when the row is passed over or
    matches no keyword, the item when it matches and its detail arrives, the
    exception when the detail request fails. *)
Definition row_item (e : env) (kws : list str) (row : json) : option (outcome item) :=
  match row with
  | JList (r0 :: r1 :: r2 :: r3 :: r4 :: r5 :: _) =>
      let detail_meta := match r5 with JDict d => d | _ => [] end in
      let parameters := get_or_none (py "parameters") detail_meta in
      match (if truthy parameters then parameters else JDict []) with
      | JDict params =>
          let subject := normalize_text (py_str r4) in
          let hits := match_keywords subject kws in
          if bool_decide (hits = []) then None
          else Some (detail ← http_post_json (detail_api e) (JDict params);
                     Ok (Item (build_item_key params)
                              (normalize_text (py_str r0)) (normalize_text (py_str r1))
                              (normalize_text (py_str r2)) (normalize_text (py_str r3))
                              subject hits params detail (strftime (now_tw e))))
      | _ => None
      end
  | _ => None
  end.

(** The text of an identity field of [params] in the key. *)
Definition field_text (params : dict) (f : str) : str :=
  py_str (get_or_none f params).

End Runtime.

(** ** Vocabulary of the properties *)

(** [k] occurs in [s] as a contiguous block. *)
Definition substring (k s : str) : Prop := ∃ a b, s = a ++ k ++ b.

(** The four sub-fields of the detail parameters the key is built from. *)
Definition key_fields : list str :=
  [py "enterDate"; py "marketKind"; py "companyId"; py "serialNumber"].

Definition same_key_fields (p q : dict) : Prop :=
  ∀ f, f ∈ key_fields → dict_get f p = dict_get f q.

(** The delimiter of the key. *)
Definition bar : N := 124.

(** A row the loop passes over: not a list of six entries or more, or a
    list whose sixth entry is a dict with a "parameters" that is true and
    not a dict. *)
Definition short_row (row : json) : Prop :=
  match row with
  | JList l => (length l < 6)%nat
  | _ => True
  end.

Definition bad_parameters (row : json) : Prop :=
  ∃ l d, row = JList l ∧ (6 ≤ length l)%nat ∧ l !! 5%nat = Some (JDict d)
         ∧ truthy (get_or_none (py "parameters") d) = true
         ∧ ∀ params, get_or_none (py "parameters") d ≠ JDict params.

Definition passed_over (row : json) : Prop := short_row row ∨ bad_parameters row.

(** A row without detail parameters: its sixth entry is not a dict, or has
    no "parameters" that is a dict. *)
Definition lacks_params (row : json) : Prop :=
  ∀ l d params, row = JList l → l !! 5%nat = Some (JDict d) →
                dict_get (py "parameters") d ≠ Some (JDict params).

(** A row of six entries or more whose sixth entry is not a dict, or is a
    dict whose "parameters" is missing or false. *)
Definition no_parameters (row : json) : Prop :=
  ∃ l r5, row = JList l ∧ l !! 5%nat = Some r5
          ∧ ((∀ d, r5 ≠ JDict d)
             ∨ ∃ d, r5 = JDict d ∧ truthy (get_or_none (py "parameters") d) = false).

(** The normalized subject of a row the loop does not pass over for its
    shape, line 147. *)
Definition row_subject (repr_seq : json → str) (row : json) : option str :=
  match row with
  | JList (r0 :: r1 :: r2 :: r3 :: r4 :: r5 :: _) =>
      Some (normalize_text (py_str repr_seq r4))
  | _ => None
  end.

(** The items of the rows that matched, in the order of the rows; the first
    failed detail request is raised. *)
Fixpoint collect (rs : list (outcome item)) : outcome (list item) :=
  match rs with
  | [] => Ok []
  | r :: rest => it ← r; its ← collect rest; Ok (it :: its)
  end.

(** The items whose key is not in the set. *)
Definition unseen (seen_keys : pyset) (its : list item) : list item :=
  filter (λ it, key it ∉ strs seen_keys) its.

(** The two lists of a loop state. *)
Definition lists_of (r : outcome loop_state) : outcome (list item * list item) :=
  st ← r; Ok (matched_items st, new_matched_items st).

(** An item with another time stamp. *)
Definition refetched (at_tw : str) (it : item) : item :=
  Item (key it) (speech_date it) (speech_time it) (company_id it) (company_name it)
       (subject it) (matched_keywords it) (detail_params it) (detail it) at_tw.

(** Two runs against the same upstream and the same day. *)
Definition same_upstream_day (e1 e2 : env) : Prop :=
  text_files e1 = text_files e2 ∧ list_api e1 = list_api e2
  ∧ detail_api e1 = detail_api e2
  ∧ year (now_tw e1) = year (now_tw e2) ∧ month (now_tw e1) = month (now_tw e2)
  ∧ day (now_tw e1) = day (now_tw e2).

(** The scalars a set can hold besides strings. *)
Definition is_scalar (v : json) : bool :=
  match v with
  | JNull | JBool _ | JInt _ => true
  | _ => false
  end.

(** The members of a set that are not strings are scalars, pairwise
    different under [==]. *)
Definition set_ok (s : pyset) : Prop :=
  Forall (λ o, is_scalar o = true) (others s) ∧ NoDup (num_of <$> others s).

(** ** Data of the examples *)

(** No example renders a list or a dict as text. *)
Definition repr_unused : json → str := λ _, [].

(** 庫藏股 *)
Definition kw_treasury : str := [0x5EAB; 0x85CF; 0x80A1].
(** 公司進行庫藏股轉讓 *)
Definition subject_transfer : str :=
  [0x516C; 0x53F8; 0x9032; 0x884C; 0x5EAB; 0x85CF; 0x80A1; 0x8F49; 0x8B93].
(** 買回庫藏股 *)
Definition subject_buyback : str := [0x8CB7; 0x56DE; 0x5EAB; 0x85CF; 0x80A1].

Definition params_3004 : dict :=
  [ (py "enterDate", JStr (py "20260104")); (py "marketKind", JStr (py "sii"));
    (py "companyId", JStr (py "3004")); (py "serialNumber", JInt 1) ].

Definition meta_3004 : json :=
  JDict [(py "apiName", JStr (py "t05st02_detail")); (py "parameters", JDict params_3004)].

Definition row_of (subject : str) (meta : json) : json :=
  JList [ JStr (py "115/01/04"); JStr (py "17:32:17"); JStr (py "3004");
          JStr (py "X"); JStr subject; meta ].

Definition row_transfer : json := row_of subject_transfer meta_3004.
Definition row_buyback : json := row_of subject_buyback meta_3004.
Definition row_short : json := JList [JStr (py "115/01/04"); JStr subject_transfer].
Definition row_no_params : json := row_of subject_transfer JNull.

Definition detail_3004 : json := JDict [(py "code", JInt 200)].

Definition at_0905 : datetime := DateTime 2026 1 4 9 5 0.
Definition at_0906 : datetime := DateTime 2026 1 4 9 6 0.

Definition env_of (now : datetime) (rows : list json) : env :=
  Env (λ path, if bool_decide (path = py "keywords.txt")
               then Some [kw_treasury ++ LF] else None)
      now
      (λ _, Some (JDict [(py "result", JDict [(py "data", JList rows)])]))
      (λ _, Some detail_3004)
      (λ _, Some (py "t"))
      (λ _, true).

Definition args0 : args :=
  Args (py "keywords.txt") (py "public/mops.json") (py "public/mops.csv")
       (py "public/state.json").

Definition world0 : world := World ∅ ∅ [].

Definition key_3004 : str := py "20260104|sii|3004|1".

Definition item_of (subject : str) (params : dict) (k : str) (now : datetime) : item :=
  Item k (py "115/01/04") (py "17:32:17") (py "3004") (py "X") subject
       [kw_treasury] params detail_3004 (strftime now).

Definition item_transfer : item := item_of subject_transfer params_3004 key_3004 at_0905.
Definition item_buyback : item := item_of subject_buyback params_3004 key_3004 at_0905.

(** The world after a first run at 09:05 on a listing of one row. *)
Definition world1 : world :=
  (main repr_unused (env_of at_0905 [row_transfer]) args0 world0).2.

(** Two parameter dicts that differ in the type of the serial number, and
    two that differ in where the bar stands. *)
Definition params_serial_int : dict := [(py "serialNumber", JInt 1)].
Definition params_serial_text : dict := [(py "serialNumber", JStr (py "1"))].
Definition params_bar_left : dict :=
  [(py "enterDate", JStr (py "a|b")); (py "marketKind", JStr (py "c"))].
Definition params_bar_right : dict :=
  [(py "enterDate", JStr (py "a")); (py "marketKind", JStr (py "b|c"))].

(** A world with a ledger of one key, and the document of a larger one. *)
Definition state_path : str := py "public/state.json".
Definition world_ledger : world :=
  World {[ state_path := Doc (JDict [(py "seen_keys", JList [JStr key_3004])]) ]} ∅ [].
Definition ledger_doc : json :=
  JDict [(py "seen_keys", JList [JStr key_3004; JStr (py "20260105|sii|2330|7")])].

(** ** Vocabulary of the further properties *)

(** White space in [s] is single spaces: every white-space code point is a
    space, and is followed by a code point that is not white space or by the
    end of [s]. *)
Fixpoint single_spaced (s : str) : bool :=
  match s with
  | [] => true
  | c :: t =>
      (negb (is_space c)
       || ((c =? 32) && match t with [] => true | d :: _ => negb (is_space d) end))
      && single_spaced t
  end.

(** The first (last) code point of [s], if any, is not white space. *)
Definition starts_solid (s : str) : Prop := ∀ c, head s = Some c → is_space c = false.
Definition ends_solid (s : str) : Prop := ∀ c, last s = Some c → is_space c = false.

(** The lines of a keyword file that give a keyword, stripped, in the order
    of the file: the ones that are neither blank nor a comment. *)
Definition kept_lines (lines : list str) : list str :=
  filter (λ k, k ≠ [] ∧ startswith (py "#") k = false) (strip <$> lines).

(** [a] is at least as long as [b]. *)
Definition no_shorter (a b : str) : Prop := (length b ≤ length a)%nat.

(** The payload of the listing request, lines 121 to 126. *)
Definition list_payload (e : env) : json :=
  JDict [ (py "year", JStr (str_of_int (roc_year (now_tw e))));
          (py "month", JStr (str_of_int (month (now_tw e))));
          (py "day", JStr (fmt_02d (day (now_tw e)))) ].

(** What a notifier leaves on its channel: nothing when the credential or
    the recipient is empty or the request fails, the message otherwise. *)
Definition sent_on (e : env) (c : channel) (cred to text : str) : list push :=
  if bool_decide (cred = []) || bool_decide (to = []) then []
  else if delivers e c then [Push c cred to text] else [].

(** The pushes of the notification step for a message. *)
Definition pushes_of (e : env) (msg : str) : list push :=
  sent_on e Telegram (getenv e (py "TELEGRAM_BOT_TOKEN")) (getenv e (py "TELEGRAM_CHAT_ID")) msg
  ++ sent_on e Line (getenv e (py "LINE_CHANNEL_ACCESS_TOKEN")) (getenv e (py "LINE_TO")) msg.

(** The lines of the digest, lines 228 to 233. *)
Definition digest_lines (new_matched_items : list item) (speech_date : str) : list str :=
  let n := Z.of_nat (length new_matched_items) in
  let lines :=
    [ [0x1F4E3] ++ py " MOPS " ++ [0x65B0; 0x516C; 0x544A; 0x547D; 0x4E2D] ++ py " "
      ++ str_of_int n ++ py " " ++ [0x7B46; 0xFF08] ++ speech_date ++ [0xFF09] ] in
  let lines := lines ++ (digest_line <$> take 10 new_matched_items) in
  if (10 <? n)%Z
  then lines ++ [ py "... " ++ [0x53E6; 0x6709] ++ py " " ++ str_of_int (n - 10)
                  ++ py " " ++ [0x7B46] ]
  else lines.

(** The same surroundings with other channel settings. *)
Definition with_channels (e : env) (environ' : str → option str)
    (delivers' : channel → bool) : env :=
  Env (text_files e) (now_tw e) (list_api e) (detail_api e) environ' delivers'.

(** *** Data of the further examples *)

(** The surroundings of [env_of] with a detail endpoint that is down, with a
    listing endpoint that is down, with a listing answer without "result",
    and without a keyword file. *)
Definition env_detail_down (rows : list json) : env :=
  Env (text_files (env_of at_0905 rows)) at_0905 (list_api (env_of at_0905 rows))
      (λ _, None) (λ _, Some (py "t")) (λ _, true).

Definition env_listing_down : env :=
  Env (text_files (env_of at_0905 [])) at_0905 (λ _, None)
      (λ _, Some detail_3004) (λ _, Some (py "t")) (λ _, true).

Definition env_no_result : env :=
  Env (text_files (env_of at_0905 [])) at_0905 (λ _, Some (JDict [(py "code", JInt 200)]))
      (λ _, Some detail_3004) (λ _, Some (py "t")) (λ _, true).

Definition env_no_keyword_file : env :=
  Env (λ _, None) at_0905 (list_api (env_of at_0905 [row_transfer]))
      (λ _, Some detail_3004) (λ _, Some (py "t")) (λ _, true).

(** A keyword file of blank lines and comments. *)
Definition env_blank_keywords : env :=
  Env (λ _, Some [LF; py "# none" ++ LF]) at_0905
      (list_api (env_of at_0905 [row_transfer]))
      (λ _, Some detail_3004) (λ _, Some (py "t")) (λ _, true).

(** A row of another company, and its item. *)
Definition params_2330 : dict :=
  [ (py "enterDate", JStr (py "20260104")); (py "marketKind", JStr (py "sii"));
    (py "companyId", JStr (py "2330")); (py "serialNumber", JInt 7) ].

Definition row_2330 : json :=
  JList [ JStr (py "115/01/04"); JStr (py "18:00:00"); JStr (py "2330");
          JStr (py "Y"); JStr subject_buyback;
          JDict [(py "parameters", JDict params_2330)] ].

Definition item_2330 : item :=
  Item (py "20260104|sii|2330|7") (py "115/01/04") (py "18:00:00") (py "2330") (py "Y")
       subject_buyback [kw_treasury] params_2330 detail_3004 (strftime at_0906).

(** A row in whose subject the keyword does not occur. *)
Definition row_other : json := row_of (py "annual report") meta_3004.

(** Worlds with a torn state file, with a ledger holding a number, and with
    a state file that is a list. *)
Definition world_torn : world := World {[ state_path := Torn ]} ∅ [].
Definition world_odd_ledger : world :=
  World {[ state_path := Doc (JDict [(py "seen_keys", JList [JInt 1])]) ]} ∅ [].
Definition world_list_state : world := World {[ state_path := Doc (JList []) ]} ∅ [].
Definition world_no_seen_keys : world :=
  World {[ state_path := Doc (JDict [(py "version", JInt 1)]) ]} ∅ [].
Definition world_nested_ledger : world :=
  World {[ state_path := Doc (JDict [(py "seen_keys", JList [JStr key_3004; JList []])]) ]} ∅ [].

(** A command line whose state path has no directory part. *)
Definition args_bare_state : args :=
  Args (py "keywords.txt") (py "public/mops.json") (py "public/mops.csv") (py "state.json").


(** A loop state with one new item. *)
Definition state_one_new : loop_state :=
  LoopState [item_transfer] [item_transfer] (Some (py "115/01/04")).

(** Surroundings in which Telegram fails and LINE delivers. *)
Definition env_telegram_down : env :=
  Env (text_files (env_of at_0905 [])) at_0905 (list_api (env_of at_0905 []))
      (λ _, Some detail_3004) (λ _, Some (py "t"))
      (λ c, match c with Telegram => false | Line => true end).

(** * Properties *)

#[local] Set Warnings "-clear-no-such-hyp".

(** ** Strings and the keyword matcher *)

Lemma startswith_spec (k s : str) : startswith k s = true ↔ ∃ b, s = k ++ b.
Proof.
  revert s. induction k as [|c k IH]; intros s; simpl.
  - split; [eauto | done].
  - destruct s as [|c' s].
    + split; [done | intros [b Hb]; discriminate].
    + rewrite andb_true_iff, N.eqb_eq, IH. split.
      * intros [-> [b ->]]. eauto.
      * intros [b Hb]. injection Hb as -> ->. eauto.
Qed.

Lemma contains_spec (k s : str) : contains k s = true ↔ substring k s.
Proof.
  unfold substring. induction s as [|c s IH]; simpl.
  - rewrite orb_false_r, startswith_spec. split.
    + intros [b Hb]. exists [], b. done.
    + intros (a & b & Hab). symmetry in Hab.
      apply app_eq_nil in Hab as [-> Hkb]. apply app_eq_nil in Hkb as [-> ->].
      by exists [].
  - rewrite orb_true_iff, startswith_spec, IH. split.
    + intros [[b Hb] | (a & b & Hab)].
      * exists [], b. done.
      * exists (c :: a), b. by rewrite Hab.
    + intros (a & b & Hab). destruct a as [|c' a].
      * left. eauto.
      * right. injection Hab as -> ->. eauto.
Qed.

Lemma match_keywords_from_filter (subject : str) (kws hits : list str) :
  match_keywords_from subject kws hits
  = hits ++ filter (λ k, contains k subject) kws.
Proof.
  revert hits. induction kws as [|k kws IH]; intros hits; simpl.
  - by rewrite app_nil_r.
  - rewrite filter_cons. destruct (contains k subject) eqn:Hk.
    + rewrite IH. rewrite decide_True by done. by rewrite <- app_assoc.
    + rewrite IH. rewrite decide_False; [done | by intros []].
Qed.

Lemma match_keywords_filter (subject : str) (kws : list str) :
  match_keywords subject kws = filter (λ k, contains k subject) kws.
Proof. unfold match_keywords. by rewrite match_keywords_from_filter. Qed.

(** C4. For every keyword list [K] and subject [S], the hits of [K] in the
    normalized subject are a subsequence of [K] in the order of [K]; every
    hit occurs in the normalized subject; every keyword of [K] that occurs in
    the normalized subject is a hit; and an empty [K] gives no hit. *)
Theorem match_keywords_exact (S : str) (K : list str) :
  let hits := match_keywords (normalize_text S) K in
  hits `sublist_of` K
  ∧ (∀ k, k ∈ hits → substring k (normalize_text S))
  ∧ (∀ k, k ∈ K → substring k (normalize_text S) → k ∈ hits)
  ∧ match_keywords (normalize_text S) [] = [].
Proof.
  intros hits. subst hits. rewrite match_keywords_filter.
  split; [apply sublist_filter|].
  split; [|split; [|done]].
  - intros k Hk. apply list_elem_of_filter in Hk as [Hk _].
    apply contains_spec. by apply Is_true_true.
  - intros k Hk Hsub. apply list_elem_of_filter. split; [|done].
    apply Is_true_true. by apply contains_spec.
Qed.

(** ** The identity key *)

Lemma split_at_bar (a b x y : str) :
  bar ∉ a → bar ∉ b → a ++ bar :: x = b ++ bar :: y → a = b ∧ x = y.
Proof.
  revert b. induction a as [|c a IH]; intros [|d b] Ha Hb Heq; simpl in *.
  - by injection Heq as ->.
  - injection Heq as <- _. exfalso. apply Hb. left.
  - injection Heq as -> _. exfalso. apply Ha. left.
  - injection Heq as -> Heq.
    apply not_elem_of_cons in Ha as [_ Ha]. apply not_elem_of_cons in Hb as [_ Hb].
    destruct (IH b Ha Hb Heq) as [-> ->]. done.
Qed.

Section Key.
Context (repr_seq : json → str).

Lemma build_item_key_texts (p : dict) :
  build_item_key repr_seq p
  = field_text repr_seq p (py "enterDate") ++ bar ::
    field_text repr_seq p (py "marketKind") ++ bar ::
    field_text repr_seq p (py "companyId") ++ bar ::
    field_text repr_seq p (py "serialNumber").
Proof. reflexivity. Qed.

(** C2, as the code has it. Equal values of the four sub-fields give equal
    keys. A sub-field enters the key as its text ([str()], with "None" for
    a missing one) and the texts are joined with a bar: when the texts of
    the first three sub-fields hold no bar, a difference in the text of any
    one of the four sub-fields gives different keys. *)
Theorem build_item_key_fields (p q : dict) :
  (same_key_fields p q → build_item_key repr_seq p = build_item_key repr_seq q)
  ∧ ((∀ f, f ∈ [py "enterDate"; py "marketKind"; py "companyId"] →
           (bar ∉ field_text repr_seq p f) ∧ (bar ∉ field_text repr_seq q f)) →
     ∀ f, f ∈ key_fields →
          field_text repr_seq p f ≠ field_text repr_seq q f →
          build_item_key repr_seq p ≠ build_item_key repr_seq q).
Proof.
  split.
  - intros Hsame. rewrite !build_item_key_texts. unfold field_text, get_or_none.
    rewrite !(Hsame (py _)); [done | unfold key_fields; repeat constructor ..].
  - intros Hbar f Hf Hdiff Hkey. rewrite !build_item_key_texts in Hkey.
    destruct (Hbar (py "enterDate")) as [Hp1 Hq1]; [repeat constructor|].
    destruct (Hbar (py "marketKind")) as [Hp2 Hq2]; [repeat constructor|].
    destruct (Hbar (py "companyId")) as [Hp3 Hq3]; [repeat constructor|].
    apply split_at_bar in Hkey as [H1 Hkey]; [|done..].
    apply split_at_bar in Hkey as [H2 Hkey]; [|done..].
    apply split_at_bar in Hkey as [H3 H4]; [|done..].
    unfold key_fields in Hf.
    repeat (apply elem_of_cons in Hf as [-> | Hf]; [done|]).
    by apply elem_of_nil in Hf.
Qed.

End Key.

(** ** The ledger *)

Lemma str_leb_total (a b : str) : str_leb a b = true ∨ str_leb b a = true.
Proof.
  revert b. induction a as [|x a IH]; intros [|y b]; simpl; auto.
  destruct (N.lt_trichotomy x y) as [Hlt | [-> | Hgt]].
  - left. apply N.ltb_lt in Hlt. by rewrite Hlt.
  - rewrite N.ltb_irrefl, N.eqb_refl. simpl. apply IH.
  - right. apply N.ltb_lt in Hgt. by rewrite Hgt.
Qed.

Lemma str_leb_trans (a b c : str) :
  str_leb a b = true → str_leb b c = true → str_leb a c = true.
Proof.
  revert b c. induction a as [|x a IH]; intros [|y b] [|z c]; simpl; try done.
  rewrite !orb_true_iff, !andb_true_iff, !N.ltb_lt, !N.eqb_eq.
  intros [Hxy | [-> Hab]] [Hyz | [-> Hbc]].
  - left. lia.
  - by left.
  - by left.
  - right. split; [done|]. by apply (IH b).
Qed.

#[local] Instance str_le_total : Total (λ a b : str, Is_true (str_leb a b)).
Proof.
  intros a b. destruct (str_leb_total a b) as [H | H]; rewrite H; simpl; auto.
Qed.

#[local] Instance str_le_trans : Transitive (λ a b : str, Is_true (str_leb a b)).
Proof.
  intros a b c Hab Hbc. apply Is_true_true. apply Is_true_true in Hab, Hbc.
  by apply (str_leb_trans a b c).
Qed.

Lemma set_add_all_strs (l : list str) (s : pyset) :
  set_add_all (JStr <$> l) s = Ok (PySet (list_to_set l ∪ strs s) (others s)).
Proof.
  revert s. induction l as [|k l IH]; intros [X os]; simpl.
  - by rewrite (left_id_L ∅ (∪)).
  - unfold mbind, outcome_bind. simpl. rewrite IH. simpl.
    by rewrite (comm_L (∪) {[k]} (list_to_set l)), <- (assoc_L (∪)).
Qed.

Lemma py_set_strs (l : list str) :
  py_set (JList (JStr <$> l)) = Ok (PySet (list_to_set l) []).
Proof.
  unfold py_set. simpl. unfold mbind, outcome_bind.
  rewrite set_add_all_strs. simpl. by rewrite (right_id_L ∅ (∪)).
Qed.

Lemma lstrip_by_split (drop : N → bool) (s : str) :
  ∃ ws, s = ws ++ lstrip_by drop s
        ∧ Forall (λ c, drop c = true) ws
        ∧ ∀ c, head (lstrip_by drop s) = Some c → drop c = false.
Proof.
  induction s as [|c s (ws & Hs & Hws & Hhead)]; simpl.
  - exists []. by repeat split.
  - destruct (drop c) eqn:Hc.
    + exists (c :: ws). split; [by rewrite Hs at 1|]. split; [by constructor|done].
    + exists []. repeat split; [constructor|]. by intros c' [= <-].
Qed.

Lemma rstrip_by_split (drop : N → bool) (s : str) :
  ∃ ws, s = rstrip_by drop s ++ ws
        ∧ Forall (λ c, drop c = true) ws
        ∧ ∀ c, last (rstrip_by drop s) = Some c → drop c = false.
Proof.
  unfold rstrip_by. destruct (lstrip_by_split drop (reverse s)) as (ws & Hs & Hws & Hhead).
  exists (reverse ws). split; [|split].
  - rewrite <- reverse_app, <- Hs. by rewrite reverse_involutive.
  - by apply Forall_reverse.
  - intros c. rewrite last_reverse. apply Hhead.
Qed.

(** ** Paths and the file system *)

Lemma rstrip_by_length (drop : N → bool) (s : str) :
  (length (rstrip_by drop s) ≤ length s)%nat.
Proof.
  destruct (rstrip_by_split drop s) as (ws & Hs & _).
  apply (f_equal length) in Hs. rewrite length_app in Hs. lia.
Qed.

Lemma dirname_length (p : str) : (length (dirname p) ≤ length p)%nat.
Proof.
  unfold dirname. cbv zeta.
  pose proof (rstrip_by_length (λ c, negb (is_slash c)) p) as H1.
  pose proof (rstrip_by_length is_slash (rstrip_by (λ c, negb (is_slash c)) p)) as H2.
  destruct (forallb _ _); lia.
Qed.

Lemma dirname_shorter (p : str) :
  p ≠ [] → ends_with_slash p = false → (length (dirname p) < length p)%nat.
Proof.
  intros Hp Hend.
  assert (Hhead : (length (rstrip_by (λ c, negb (is_slash c)) p) < length p)%nat).
  { destruct (rstrip_by_split (λ c, negb (is_slash c)) p) as (ws & Hs & _ & Hlast).
    destruct ws as [|c ws].
    - rewrite app_nil_r in Hs. exfalso. unfold ends_with_slash in Hend.
      destruct (last p) as [c|] eqn:Hl.
      + rewrite Hs in Hl. apply Hlast in Hl. by rewrite Hend in Hl.
      + by apply last_None in Hl.
    - apply (f_equal length) in Hs. rewrite length_app in Hs. simpl in Hs. lia. }
  unfold dirname. cbv zeta.
  pose proof (rstrip_by_length is_slash (rstrip_by (λ c, negb (is_slash c)) p)) as H2.
  destruct (forallb _ _); lia.
Qed.

Lemma dir_chain_length (fuel : nat) (d a : str) :
  a ∈ dir_chain fuel d → (length a ≤ length d)%nat.
Proof.
  revert d. induction fuel as [|fuel IH]; intros d; cbn [dir_chain].
  - by intros ?%elem_of_nil.
  - case_bool_decide; [by intros ?%elem_of_nil|].
    intros [-> | Ha]%elem_of_cons; [done|].
    case_bool_decide; [by apply elem_of_nil in Ha|].
    apply IH in Ha. pose proof (dirname_length d). lia.
Qed.

Lemma parents_not_self (p : str) : ends_with_slash p = false → p ∉ parents p.
Proof.
  intros Hend Hin. destruct (decide (p = [])) as [-> | Hp].
  - by apply elem_of_nil in Hin.
  - apply dir_chain_length in Hin. pose proof (dirname_shorter p Hp Hend). lia.
Qed.

Lemma made_cons (d : str) : d ≠ [] → ∃ above, made d = d :: above.
Proof.
  intros Hd. unfold made. cbn [dir_chain]. rewrite bool_decide_false by done. eauto.
Qed.

Lemma is_root_ends (p : str) : is_root p = true → ends_with_slash p = true.
Proof.
  unfold is_root, ends_with_slash.
  intros [Hp Hall]%andb_true_iff. apply negb_true_iff, bool_decide_eq_false in Hp.
  destruct (last p) as [c|] eqn:Hl; [|by apply last_None in Hl].
  apply last_Some in Hl as [l' ->]. rewrite forallb_app in Hall.
  apply andb_true_iff in Hall as [_ Hc]. simpl in Hc. by rewrite andb_true_r in Hc.
Qed.

Lemma is_file_false (p : str) (w : world) : is_file p w = false ↔ files w !! p = None.
Proof. unfold is_file. by rewrite bool_decide_eq_false, eq_None_not_Some. Qed.

Lemma is_directory_false (p : str) (w : world) :
  is_directory p w = false
  ↔ is_root p = false ∧ (p ∉ dirs w) ∧ ∀ q, is_Some (files w !! q) → p ∉ parents q.
Proof.
  unfold is_directory. rewrite !orb_false_iff, !bool_decide_eq_false. split.
  - intros [[Hr Hd] Hx]. repeat split; try done.
    intros q Hq Hin. apply Hx. exists q. split; [by apply elem_of_dom|done].
  - intros (Hr & Hd & Hx). repeat split; try done.
    intros (q & Hq & Hin). apply (Hx q); [by apply elem_of_dom|done].
Qed.

Lemma is_directory_add_dirs (p : str) (ds : list str) (w : world) :
  is_directory p (add_dirs ds w) = false ↔ is_directory p w = false ∧ p ∉ ds.
Proof.
  rewrite !is_directory_false. unfold add_dirs. simpl.
  rewrite not_elem_of_union, elem_of_list_to_set. tauto.
Qed.

Lemma writable_parts (p : str) (w : world) :
  writable p w = true
  ↔ dirname p ≠ [] ∧ ends_with_slash p = false
    ∧ (∀ a, a ∈ parents p → files w !! a = None)
    ∧ is_directory p w = false.
Proof.
  unfold writable.
  rewrite !andb_true_iff, !negb_true_iff, bool_decide_eq_false, forallb_forall. split.
  - intros [[[Hd Hs] Hpar] Hdir]. repeat split; try done.
    intros a Ha. apply is_file_false, negb_true_iff, Hpar. by apply list_elem_of_In.
  - intros (Hd & Hs & Hpar & Hdir). repeat split; try done.
    intros a Ha. apply negb_true_iff, is_file_false, Hpar. by apply list_elem_of_In.
Qed.

Lemma writable_spec (p : str) (w : world) :
  writable p w = true
  ↔ dirname p ≠ [] ∧ ends_with_slash p = false
    ∧ (∀ a, a ∈ parents p → files w !! a = None)
    ∧ (p ∉ dirs w)
    ∧ (∀ q, is_Some (files w !! q) → p ∉ parents q).
Proof.
  rewrite writable_parts, is_directory_false. split.
  - intros (Hd & Hs & Hpar & _ & Hdirs & Hder). done.
  - intros (Hd & Hs & Hpar & Hdirs & Hder). repeat split; try done.
    destruct (is_root p) eqn:Hr; [|done]. apply is_root_ends in Hr. congruence.
Qed.

Lemma writable_ext (p : str) (w w' : world) :
  files w = files w' → dirs w = dirs w' → writable p w = writable p w'.
Proof.
  intros Hf Hd. unfold writable, is_directory, is_file. by rewrite Hf, Hd.
Qed.

Lemma apart_spec (p q : str) :
  apart p q = true ↔ (p ∉ parents q) ∧ (q ∉ parents p).
Proof.
  unfold apart. by rewrite andb_true_iff, !negb_true_iff, !bool_decide_eq_false.
Qed.

Lemma apart_sym (p q : str) : apart p q = apart q p.
Proof. unfold apart. apply andb_comm. Qed.

Lemma apart_self (p : str) (w : world) : writable p w = true → apart p p = true.
Proof.
  intros (_ & Hs & _)%writable_parts. apply apart_spec.
  split; by apply parents_not_self.
Qed.

(** A path can be written after another one was saved when it could be
    written before and neither lies under the other. *)
Lemma writable_saved (p q : str) (f : file) (w : world) :
  writable q (saved p f w) = true ↔ writable q w = true ∧ apart p q = true.
Proof.
  rewrite !writable_spec, apart_spec. unfold saved, set_file, add_dirs. simpl. split.
  - intros (Hd & Hs & Hpar & Hdirs & Hder).
    assert (Hpq : p ∉ parents q).
    { intros Hin. specialize (Hpar p Hin). by rewrite lookup_insert_eq in Hpar. }
    assert (Hqp : q ∉ parents p).
    { intros Hin. apply Hdirs. by apply elem_of_union_l, elem_of_list_to_set. }
    repeat split; try done.
    + intros a Ha. specialize (Hpar a Ha). apply lookup_insert_None in Hpar. tauto.
    + intros Hin. apply Hdirs. by apply elem_of_union_r.
    + intros q' Hq'. apply Hder. rewrite lookup_insert_is_Some.
      destruct (decide (p = q')); auto.
  - intros ((Hd & Hs & Hpar & Hdirs & Hder) & Hpq & Hqp). repeat split; try done.
    + intros a Ha. apply lookup_insert_None. split; [by apply Hpar|]. by intros ->.
    + rewrite elem_of_union, elem_of_list_to_set. tauto.
    + intros q' Hq'. apply lookup_insert_is_Some in Hq' as [<- | [_ Hq']]; [done|].
      by apply Hder.
Qed.

Lemma makedirs_error_None (d : str) (w : world) :
  makedirs_error d w = None ↔ d ≠ [] ∧ ∀ a, a ∈ made d → files w !! a = None.
Proof.
  unfold makedirs_error. destruct (decide (d = [])) as [-> | Hd].
  - split; [done|]. by intros [? _].
  - destruct (made_cons d Hd) as [above Hm]. rewrite Hm.
    destruct (existsb _ above) eqn:Hex.
    + split; [done|]. intros [_ Hall]. apply existsb_exists in Hex as (a & Ha & Hfile).
      rewrite (proj2 (is_file_false a w)) in Hfile; [done|].
      apply Hall. right. by apply list_elem_of_In.
    + destruct (is_file d w) eqn:Hf.
      * split; [done|]. intros [_ Hall].
        rewrite (proj2 (is_file_false d w)) in Hf; [done|]. apply Hall. left.
      * split; [|done]. intros _. split; [done|].
        intros a [-> | Ha]%elem_of_cons; [by apply is_file_false|].
        apply is_file_false. destruct (is_file a w) eqn:Hfa; [|done].
        assert (Hyes : existsb (λ a, is_file a w) above = true).
        { apply existsb_exists. exists a. split; [by apply list_elem_of_In|done]. }
        congruence.
Qed.

Lemma open_error_None (p : str) (w : world) :
  open_error p w = None ↔ p ≠ [] ∧ ends_with_slash p = false ∧ is_directory p w = false.
Proof.
  unfold open_error. case_bool_decide as Hp; [split; [done|by intros [? _]]|].
  destruct (ends_with_slash p), (is_directory p w); simpl; split; try done;
    by intros (_ & ? & ?).
Qed.

Lemma writable_exec (p : str) (w : world) :
  writable p w = true
  ↔ makedirs_error (dirname p) w = None ∧ open_error p (add_dirs (parents p) w) = None.
Proof.
  rewrite writable_parts, makedirs_error_None, open_error_None, is_directory_add_dirs.
  fold (parents p). split.
  - intros (Hd & Hs & Hpar & Hdir). repeat split; try done.
    + by intros ->.
    + by apply parents_not_self.
  - intros ((Hd & Hpar) & _ & Hs & Hdir & _). done.
Qed.

Lemma refusal_kept (p : str) (w : world) :
  files (refusal p w).2 = files w ∧ pushed (refusal p w).2 = pushed w.
Proof. unfold refusal. by destruct (makedirs_error _ _). Qed.

Lemma refusal_bare (p : str) (w : world) :
  dirname p = [] → writable p w = false ∧ refusal p w = (FileNotFoundError, w).
Proof.
  intros Hd. split.
  - unfold writable. by rewrite bool_decide_true.
  - unfold refusal. by rewrite Hd.
Qed.

(** The three calls of a save. *)
Lemma exec_save (p : str) (op : fs_op) (f : file) (w : world) :
  (∀ w', exec_op op w' = (Ok (), set_file p f w')) →
  exec_ops [MakeDirs (dirname p); OpenW p; op] w
  = if writable p w then (Ok (), saved p f w)
    else (Raise (refusal p w).1, (refusal p w).2).
Proof.
  intros Hop. cbn [exec_ops]. unfold mbind, M_bind, mret, M_ret. cbn [exec_op].
  unfold refusal. fold (parents p). destruct (writable p w) eqn:Hw.
  - apply writable_exec in Hw as [Hm Ho]. rewrite Hm, Ho, Hop.
    unfold saved, set_file, add_dirs. simpl. by rewrite insert_insert_eq.
  - destruct (makedirs_error (dirname p) w) as [x|] eqn:Hm; [done|].
    destruct (open_error p _) as [x|] eqn:Ho; [done|].
    assert (writable p w = true) by (by apply writable_exec). congruence.
Qed.

Lemma save_json_cases (path : str) (obj : json) (w : world) :
  save_json path obj w
  = if writable path w then (Ok (), saved path (Doc obj) w)
    else (Raise (refusal path w).1, (refusal path w).2).
Proof. by apply exec_save. Qed.

Lemma save_csv_cases path rows fieldnames (w : world) :
  save_csv path rows fieldnames w
  = if writable path w then (Ok (), saved path (Table fieldnames rows) w)
    else (Raise (refusal path w).1, (refusal path w).2).
Proof. by apply exec_save. Qed.

Lemma save_json_done (path : str) (obj : json) (w : world) :
  writable path w = true →
  save_json path obj w = (Ok (), saved path (Doc obj) w).
Proof. intros Hw. by rewrite save_json_cases, Hw. Qed.

Lemma save_json_raises (path : str) (obj : json) (w : world) :
  dirname path = [] →
  save_json path obj w = (Raise FileNotFoundError, w).
Proof.
  intros Hd. destruct (refusal_bare path w Hd) as [Hw Hr].
  by rewrite save_json_cases, Hw, Hr.
Qed.

Lemma load_state_file (path : str) (w : world) (f : file) :
  files w !! path = Some f →
  load_state path w
  = match f with
    | Doc v => (Ok v, w)
    | _ => (Raise JSONDecodeError, w)
    end.
Proof.
  intros Hf. unfold load_state, path_exists, is_file. rewrite Hf.
  rewrite bool_decide_true by done. by destruct f.
Qed.

Lemma load_state_saved (path : str) (f : file) (w : world) :
  files (saved path f w) !! path = Some f.
Proof. unfold saved, set_file. simpl. apply lookup_insert_eq. Qed.

Lemma load_seen_keys_doc (path : str) (w : world) (listed : json) :
  files w !! path = Some (Doc (JDict [(py "seen_keys", listed)])) →
  load_seen_keys path w = (py_set listed, w).
Proof.
  intros Hf. unfold load_seen_keys, mbind, M_bind, lift.
  by rewrite (load_state_file _ _ _ Hf).
Qed.

Lemma sorted_strs_to_set (X : gset str) :
  list_to_set (merge_sort (λ a b : str, Is_true (str_leb a b)) (elements X)) = X.
Proof.
  apply set_eq. intros k. rewrite elem_of_list_to_set.
  rewrite merge_sort_Permutation. apply elem_of_elements.
Qed.

(** C9. At a path where nothing exists, neither a file nor a directory,
    loading the ledger gives the empty set of seen keys and raises
    nothing. *)
Theorem load_seen_keys_absent (path : str) (w : world) :
  path_exists path w = false →
  load_state path w = (Ok (JDict [(py "seen_keys", JList [])]), w)
  ∧ load_seen_keys path w = (Ok (PySet ∅ []), w).
Proof.
  intros Hf. unfold load_seen_keys, load_state, mbind, M_bind, lift.
  by rewrite Hf.
Qed.


(** C5, as the code has it. [save_json] makes the directory, opens the
    destination itself for writing and dumps into it: no call writes to
    another path. At a path that can be written, a run cut short after the
    open and before the end of the dump leaves at the destination a file
    [load_state] raises on; cut short before the open it leaves every file
    as it was, and once the dump is done the destination loads as the saved
    value. *)
Theorem save_json_in_place (path : str) (obj : json) (w : world) :
  writable path w = true →
  (∀ op, op ∈ save_json_ops path obj → op_target op = None ∨ op_target op = Some path)
  ∧ (load_state path (crash_after 2 (save_json_ops path obj) w)).1 = Raise JSONDecodeError
  ∧ (∀ n, (n ≤ 1)%nat → files (crash_after n (save_json_ops path obj) w) = files w)
  ∧ (∀ n, (3 ≤ n)%nat →
          crash_after n (save_json_ops path obj) w = (save_json path obj w).2
          ∧ (load_state path (crash_after n (save_json_ops path obj) w)).1 = Ok obj).
Proof.
  intros Hw. pose proof (proj1 (writable_exec path w) Hw) as [Hm Ho].
  split; [|split; [|split]].
  - intros op Hop. unfold save_json_ops in Hop.
    repeat (apply elem_of_cons in Hop as [-> | Hop]; [simpl; auto|]).
    by apply elem_of_nil in Hop.
  - unfold crash_after, save_json_ops. cbn [take exec_ops].
    unfold mbind, M_bind, mret, M_ret. cbn [exec_op]. rewrite Hm.
    fold (parents path). rewrite Ho. cbn [snd].
    rewrite (load_state_file path _ Torn); [done|].
    unfold set_file. simpl. apply lookup_insert_eq.
  - intros n Hn. unfold crash_after. destruct n as [|[|n]]; [done| |lia].
    unfold save_json_ops. cbn [take exec_ops].
    unfold mbind, M_bind, mret, M_ret. cbn [exec_op]. by rewrite Hm.
  - intros n Hn. unfold crash_after.
    rewrite take_ge by (simpl; lia).
    fold (save_json path obj). rewrite save_json_done by done. cbn [snd].
    split; [done|]. by rewrite (load_state_file path _ (Doc obj)) by apply load_state_saved.
Qed.

(** ** The loop over the rows *)

Lemma filter_sublist_mono {A} (P : A → Prop) `{!∀ x, Decision (P x)} (l1 l2 : list A) :
  l1 `sublist_of` l2 → filter P l1 `sublist_of` filter P l2.
Proof.
  induction 1 as [|x l1 l2 _ IH|x l1 l2 _ IH].
  - done.
  - rewrite !filter_cons. destruct (decide (P x)); [by constructor | done].
  - rewrite filter_cons. destruct (decide (P x)); [by constructor | done].
Qed.

Section Loop.
Context (repr_seq : json → str).

Lemma row_step_lists e kws seen row st :
  lists_of (row_step repr_seq e kws seen row st)
  = match row_item repr_seq e kws row with
    | None => Ok (matched_items st, new_matched_items st)
    | Some r =>
        it ← r;
        Ok (matched_items st ++ [it], new_matched_items st ++ unseen seen [it])
    end.
Proof.
  unfold row_step, row_item, lists_of, unseen.
  destruct row as [| | | |l|]; try done.
  destruct l as [|r0 [|r1 [|r2 [|r3 [|r4 [|r5 l]]]]]]; try done.
  destruct (if truthy _ then _ else _) as [| | | | |params]; try done.
  case_bool_decide; [done|].
  unfold mbind, outcome_bind.
  destruct (http_post_json _ _) as [detail|x]; [|done]. simpl.
  rewrite filter_cons, filter_nil. simpl.
  case_bool_decide as Hin.
  - rewrite decide_False by (intros Hnot; by apply Hnot). by rewrite app_nil_r.
  - by rewrite decide_True by done.
Qed.

Lemma rows_loop_lists e kws seen rows st :
  lists_of (rows_loop repr_seq e kws seen rows st)
  = (its ← collect (omap (row_item repr_seq e kws) rows);
     Ok (matched_items st ++ its, new_matched_items st ++ unseen seen its)).
Proof.
  revert st. induction rows as [|row rows IH]; intros st.
  - simpl. unfold unseen. by rewrite filter_nil, !app_nil_r.
  - simpl. pose proof (row_step_lists e kws seen row st) as Hstep.
    destruct (row_step repr_seq e kws seen row st) as [st'|x] eqn:Hrow; simpl in *.
    + unfold mbind at 1, outcome_bind at 1. rewrite IH.
      destruct (row_item repr_seq e kws row) as [[it|y]|]; simpl in *;
        unfold mbind, outcome_bind in *; simpl in *.
      * injection Hstep as -> ->.
        destruct (collect _) as [its|z]; [|done].
        unfold unseen. by rewrite (filter_app _ [it] its), <- !app_assoc.
      * discriminate.
      * by injection Hstep as -> ->.
    + destruct (row_item repr_seq e kws row) as [[it|y]|]; simpl in *;
        unfold mbind, outcome_bind in *; simpl in *; by simplify_eq.
Qed.

Lemma rows_loop_Ok e kws seen rows st :
  rows_loop repr_seq e kws seen rows (LoopState [] [] None) = Ok st →
  collect (omap (row_item repr_seq e kws) rows) = Ok (matched_items st)
  ∧ new_matched_items st = unseen seen (matched_items st).
Proof.
  intros Hloop. pose proof (rows_loop_lists e kws seen rows (LoopState [] [] None)) as H.
  rewrite Hloop in H. simpl in H.
  destruct (collect _) as [its|x]; unfold mbind, outcome_bind in H; simpl in H; by simplify_eq.
Qed.

End Loop.

(** ** Sets of hashable values *)

Lemma scalar_eqb_num (a b : json) :
  is_scalar a = true → is_scalar b = true →
  scalar_eqb a b = bool_decide (num_of a = num_of b).
Proof.
  destruct a, b; simpl; try done; intros _ _.
  all: try (by rewrite bool_decide_true).
  all: try (by rewrite bool_decide_false).
  all: match goal with
       | |- (?x =? ?y)%Z = _ =>
           destruct (Z.eqb_spec x y) as [Heq | Hne];
           [rewrite bool_decide_true by congruence
           |rewrite bool_decide_false by congruence]; done
       end.
Qed.

Lemma existsb_scalar_eqb (v : json) (os : list json) :
  is_scalar v = true → Forall (λ o, is_scalar o = true) os →
  existsb (scalar_eqb v) os = bool_decide (num_of v ∈ num_of <$> os).
Proof.
  intros Hv. induction 1 as [|o os Ho _ IH].
  - done.
  - cbn [existsb]. rewrite IH, (scalar_eqb_num v o), fmap_cons by done.
    rewrite <- bool_decide_or. apply bool_decide_ext. by rewrite elem_of_cons.
Qed.

Lemma set_add_ok (v : json) (s s' : pyset) :
  set_ok s → set_add v s = Ok s' → set_ok s'.
Proof.
  intros [Hsc Hnd] Hadd. unfold set_add in Hadd.
  assert (Hscalar : is_scalar v = true →
    (if existsb (scalar_eqb v) (others s) then s
     else PySet (strs s) (others s ++ [v])) = s' → set_ok s').
  { intros Hv. rewrite existsb_scalar_eqb by done.
    case_bool_decide as Hin; intros <-; [done|]. split; simpl.
    - apply Forall_app. split; [done|]. by constructor.
    - rewrite fmap_app. apply NoDup_app. split; [done|]. split.
      + intros x Hx. simpl. rewrite list_elem_of_singleton. by intros ->.
      + apply NoDup_singleton. }
  destruct v; simplify_eq; try (apply Hscalar; done). done.
Qed.

Lemma set_add_all_ok (vs : list json) (s s' : pyset) :
  set_ok s → set_add_all vs s = Ok s' → set_ok s'.
Proof.
  revert s. induction vs as [|v vs IH]; intros s Hs; simpl.
  - by intros [= <-].
  - unfold mbind, outcome_bind. destruct (set_add v s) as [s1|] eqn:Hadd; [|done].
    apply IH. by apply (set_add_ok v s).
Qed.

Lemma py_set_ok (v : json) (s : pyset) : py_set v = Ok s → set_ok s.
Proof.
  unfold py_set, mbind, outcome_bind. destruct (iterate v) as [vs|]; [|done].
  apply set_add_all_ok. split; simpl; constructor.
Qed.

Lemma py_set_list (l : list json) : py_set (JList l) = set_add_all l (PySet ∅ []).
Proof. reflexivity. Qed.

(** Adding scalars that are new and pairwise different appends them. *)
Lemma set_add_all_scalars (l : list json) (X : gset str) (acc : list json) :
  Forall (λ o, is_scalar o = true) acc →
  Forall (λ o, is_scalar o = true) l →
  NoDup (num_of <$> (acc ++ l)) →
  set_add_all l (PySet X acc) = Ok (PySet X (acc ++ l)).
Proof.
  revert acc. induction l as [|v l IH]; intros acc Hacc Hl Hnd; simpl.
  - by rewrite app_nil_r.
  - apply Forall_cons in Hl as [Hv Hl].
    unfold mbind, outcome_bind.
    assert (Hnew : existsb (scalar_eqb v) acc = false).
    { rewrite existsb_scalar_eqb by done. apply bool_decide_false.
      rewrite fmap_app in Hnd. apply NoDup_app in Hnd as (_ & Hdisj & _).
      intros Hin. apply (Hdisj _ Hin). simpl. left. }
    assert (Hstep : set_add v (PySet X acc) = Ok (PySet X (acc ++ [v]))).
    { unfold set_add. simpl. rewrite Hnew. by destruct v. }
    rewrite Hstep, IH.
    + by rewrite <- app_assoc.
    + apply Forall_app. split; [done|]. by constructor.
    + done.
    + by rewrite <- app_assoc.
Qed.

Lemma add_keys_union (its : list item) (s : pyset) :
  add_keys its s = PySet (list_to_set (key <$> its) ∪ strs s) (others s).
Proof.
  revert s. induction its as [|it its IH]; intros [X os]; simpl.
  - by rewrite (left_id_L ∅ (∪)).
  - rewrite IH. cbn [strs others fmap list_fmap list_to_set foldr].
    f_equal. set_solver.
Qed.

(** What is saved for a set loads back as the same set: the same strings,
    and the same other members in sorted order. *)
Lemma sorted_set_reload (s : pyset) (l : list json) :
  set_ok s → sorted_set s = Ok l →
  ∃ os, py_set (JList l) = Ok (PySet (strs s) os) ∧ os ≡ₚ others s.
Proof.
  intros [Hsc Hnd]. unfold sorted_set.
  destruct s as [X os]. simpl in *.
  destruct os as [|o1 [|o2 os]].
  - intros [= <-]. exists []. split; [|done].
    rewrite py_set_strs. by rewrite sorted_strs_to_set.
  - case_bool_decide as HX; [|done]. intros [= <-]. subst X. exists [o1].
    split; [|done]. rewrite py_set_list.
    by rewrite (set_add_all_scalars [o1] ∅ []).
  - destruct (bool_decide (X = ∅) && _) eqn:Hok; [|done].
    apply andb_true_iff in Hok as [HX _]. apply bool_decide_eq_true in HX as ->.
    intros [= <-].
    set (l := merge_sort (λ a b : json, Is_true (num_leb a b)) (o1 :: o2 :: os)).
    assert (Hperm : l ≡ₚ o1 :: o2 :: os) by apply merge_sort_Permutation.
    exists l. split; [|done].
    rewrite py_set_list.
    rewrite (set_add_all_scalars l ∅ []); [done | done | by rewrite Hperm |].
    rewrite app_nil_l. by rewrite Hperm.
Qed.

(** Sorting succeeds again on a set with the same strings and the same
    other members. *)
Lemma sorted_set_again (s : pyset) (l : list json) (os : list json) :
  sorted_set s = Ok l → os ≡ₚ others s →
  ∃ l', sorted_set (PySet (strs s) os) = Ok l'.
Proof.
  unfold sorted_set. destruct s as [X os0]. simpl. intros Hs Hperm.
  destruct os0 as [|o1 [|o2 os0]].
  - apply Permutation_nil_r in Hperm as ->. eauto.
  - apply Permutation_singleton_r in Hperm as ->. case_bool_decide; [eauto|done].
  - destruct (bool_decide (X = ∅) && _) eqn:Hok; [|done].
    apply andb_true_iff in Hok as [HX Hnum].
    pose proof (Permutation_length Hperm) as Hlen. simpl in Hlen.
    destruct os as [|p1 [|p2 os]]; [done..|].
    assert (Hall : forallb (λ o : json, bool_decide (is_Some (num_of o))) (p1 :: p2 :: os) = true).
    { apply forallb_forall. intros x Hx.
      apply (proj1 (forallb_forall (λ o : json, bool_decide (is_Some (num_of o)))
                                   (o1 :: o2 :: os0)) Hnum).
      apply list_elem_of_In. rewrite <- Hperm. by apply list_elem_of_In. }
    change (∃ l', (if bool_decide (X = ∅)
                      && forallb (λ o : json, bool_decide (is_Some (num_of o)))
                                 (p1 :: p2 :: os)
                   then Ok (merge_sort (λ a b : json, Is_true (num_leb a b)) (p1 :: p2 :: os))
                   else Raise TypeError) = Ok l').
    rewrite HX, Hall. eauto.
Qed.

(** ** A whole run *)

Lemma load_state_world (path : str) (w : world) : (load_state path w).2 = w.
Proof.
  unfold load_state. destruct (negb _); [done|].
  by destruct (files w !! path) as [[v| |]|].
Qed.

Lemma load_seen_keys_world (path : str) (w : world) : (load_seen_keys path w).2 = w.
Proof.
  unfold load_seen_keys, mbind, M_bind, lift.
  pose proof (load_state_world path w) as Hw.
  destruct (load_state path w) as [[v|x] w1]; simpl in *; subst w1; [|done].
  by destruct (attr_get v _ _).
Qed.

Lemma load_seen_keys_eta (path : str) (w : world) (s : pyset) :
  (load_seen_keys path w).1 = Ok s → load_seen_keys path w = (Ok s, w).
Proof.
  intros H. rewrite (surjective_pairing (load_seen_keys path w)).
  by rewrite H, load_seen_keys_world.
Qed.

Lemma load_seen_keys_ok (path : str) (w : world) (s : pyset) :
  (load_seen_keys path w).1 = Ok s → set_ok s.
Proof.
  unfold load_seen_keys, mbind, M_bind, lift.
  destruct (load_state path w) as [[v|x] w1]; simpl; [|done].
  destruct (attr_get v _ _) as [listed|]; [|done]. apply py_set_ok.
Qed.

Lemma swallow_files (c : M ()) (w : world) :
  files (c w).2 = files w → files (swallow c w).2 = files w.
Proof. unfold swallow. by destruct (c w) as [[|] w']. Qed.

Lemma swallow_Ok (c : M ()) (w : world) : (swallow c w).1 = Ok ().
Proof. unfold swallow. by destruct (c w) as [[[]|] w']. Qed.

Lemma post_push_files e c cred to text w : files (post_push e c cred to text w).2 = files w.
Proof. unfold post_push. by repeat case_match. Qed.

Lemma notify_files (e : env) (st : loop_state) (w : world) :
  files (notify e st w).2 = files w.
Proof.
  unfold notify. case_bool_decide; [done|].
  unfold mbind, M_bind, lift. destruct (last_speech_date st) as [d|]; [|done].
  pose proof (swallow_files (telegram_notify e (getenv e (py "TELEGRAM_BOT_TOKEN"))
    (getenv e (py "TELEGRAM_CHAT_ID")) (digest (new_matched_items st) d)) w
    (post_push_files _ _ _ _ _ _)) as H1.
  destruct (swallow (telegram_notify _ _ _ _) w) as [[[]|x] w1]; simpl in *; [|done].
  rewrite <- H1. apply swallow_files, post_push_files.
Qed.

Lemma notify_nothing (e : env) (st : loop_state) (w : world) :
  new_matched_items st = [] → notify e st w = (Ok (), w).
Proof. intros H. unfold notify. by rewrite bool_decide_true. Qed.

Lemma swallow_dirs (c : M ()) (w : world) :
  dirs (c w).2 = dirs w → dirs (swallow c w).2 = dirs w.
Proof. unfold swallow. by destruct (c w) as [[|] w']. Qed.

Lemma post_push_dirs e c cred to text w : dirs (post_push e c cred to text w).2 = dirs w.
Proof. unfold post_push. by repeat case_match. Qed.

Lemma notify_dirs (e : env) (st : loop_state) (w : world) :
  dirs (notify e st w).2 = dirs w.
Proof.
  unfold notify. case_bool_decide; [done|].
  unfold mbind, M_bind, lift. destruct (last_speech_date st) as [d|]; [|done].
  pose proof (swallow_dirs (telegram_notify e (getenv e (py "TELEGRAM_BOT_TOKEN"))
    (getenv e (py "TELEGRAM_CHAT_ID")) (digest (new_matched_items st) d)) w
    (post_push_dirs _ _ _ _ _ _)) as H1.
  destruct (swallow (telegram_notify _ _ _ _) w) as [[[]|x] w1]; simpl in *; [|done].
  rewrite <- H1. apply swallow_dirs, post_push_dirs.
Qed.

(** The writes of a run, one after the other. *)
Lemma commit_cases e a kws seen st w :
  commit e a kws seen st w
  = if writable (out_json a) w then
      let w1 := saved (out_json a) (Doc (out_doc e kws st)) w in
      if writable (out_csv a) w1 then
        let w2 := saved (out_csv a) (Table csv_fieldnames (csv_row <$> matched_items st)) w1 in
        match sorted_set (add_keys (matched_items st) seen) with
        | Raise x => (Raise x, w2)
        | Ok l =>
            if writable (state a) w2 then
              let w3 := saved (state a) (Doc (JDict [(py "seen_keys", JList l)])) w2 in
              match notify e st w3 with
              | (Ok _, w4) => (Ok (matched_items st, new_matched_items st), w4)
              | (Raise x, w4) => (Raise x, w4)
              end
            else (Raise (refusal (state a) w2).1, (refusal (state a) w2).2)
        end
      else (Raise (refusal (out_csv a) w1).1, (refusal (out_csv a) w1).2)
    else (Raise (refusal (out_json a) w).1, (refusal (out_json a) w).2).
Proof.
  unfold commit, save_seen_keys. unfold mbind, M_bind, lift, mret, M_ret.
  rewrite save_json_cases. destruct (writable (out_json a) w); [|done].
  rewrite save_csv_cases. cbv zeta. destruct (writable (out_csv a) _); [|done].
  destruct (sorted_set _) as [l|x]; [|done].
  rewrite save_json_cases. destruct (writable (state a) _); [|done].
  by destruct (notify e st _) as [[[]|x] w4].
Qed.

Lemma writable_paths_parts (a : args) (w : world) :
  writable_paths a w = true
  ↔ writable (out_json a) w = true ∧ writable (out_csv a) w = true
    ∧ writable (state a) w = true
    ∧ apart (out_json a) (out_csv a) = true ∧ apart (out_json a) (state a) = true
    ∧ apart (out_csv a) (state a) = true.
Proof. unfold writable_paths. rewrite !andb_true_iff. tauto. Qed.

(** The three paths can be written one after the other exactly when each
    can be written at the start and none lies under another. *)
Lemma writable_paths_chain (a : args) (w : world) (f1 f2 : file) :
  writable_paths a w = true
  ↔ writable (out_json a) w = true
    ∧ writable (out_csv a) (saved (out_json a) f1 w) = true
    ∧ writable (state a) (saved (out_csv a) f2 (saved (out_json a) f1 w)) = true.
Proof. rewrite writable_paths_parts, !writable_saved. tauto. Qed.

(** The paths a run wrote can be written again. *)
Lemma writable_paths_again (a : args) (w w' : world) (f1 f2 f3 : file) :
  writable_paths a w = true →
  files w' = files (saved (state a) f3 (saved (out_csv a) f2 (saved (out_json a) f1 w))) →
  dirs w' = dirs (saved (state a) f3 (saved (out_csv a) f2 (saved (out_json a) f1 w))) →
  writable_paths a w' = true.
Proof.
  intros (H1 & H2 & H3 & H12 & H13 & H23)%writable_paths_parts Hf Hd.
  pose proof (apart_self _ _ H1) as H11. pose proof (apart_self _ _ H2) as H22.
  pose proof (apart_self _ _ H3) as H33.
  pose proof H12 as H21. rewrite apart_sym in H21.
  pose proof H13 as H31. rewrite apart_sym in H31.
  pose proof H23 as H32. rewrite apart_sym in H32.
  apply writable_paths_parts.
  rewrite !(writable_ext _ w' _ Hf Hd), !writable_saved. tauto.
Qed.

Lemma commit_Ok e a kws seen st w r w' :
  commit e a kws seen st w = (Ok r, w') →
  r = (matched_items st, new_matched_items st)
  ∧ writable_paths a w = true ∧ writable_paths a w' = true
  ∧ ∃ l, sorted_set (add_keys (matched_items st) seen) = Ok l
         ∧ files w' !! state a = Some (Doc (JDict [(py "seen_keys", JList l)])).
Proof.
  rewrite commit_cases.
  destruct (writable (out_json a) w) eqn:H1; [|done]. cbv zeta.
  destruct (writable (out_csv a) _) eqn:H2; [|done].
  destruct (sorted_set _) as [l|] eqn:Hsorted; [|done].
  destruct (writable (state a) _) eqn:H3; [|done].
  match goal with |- context [notify e st ?w1] =>
    pose proof (notify_files e st w1) as Hfiles;
    pose proof (notify_dirs e st w1) as Hdirs;
    destruct (notify e st w1) as [[[]|x] w2] end; [|done].
  intros [= <- <-]. cbn [snd] in Hfiles, Hdirs.
  assert (Hall : writable_paths a w = true).
  { eapply writable_paths_chain. eauto. }
  split; [done|]. split; [done|]. split.
  - by apply (writable_paths_again a w _ _ _ _ Hall Hfiles Hdirs).
  - exists l. split; [done|]. rewrite Hfiles. apply load_state_saved.
Qed.

Lemma commit_quiet e a kws seen st w l :
  writable_paths a w = true →
  sorted_set (add_keys (matched_items st) seen) = Ok l →
  new_matched_items st = [] →
  ∃ w', commit e a kws seen st w = (Ok (matched_items st, []), w')
        ∧ pushed w' = pushed w.
Proof.
  intros Hall Hsorted Hnew. rewrite commit_cases.
  apply (writable_paths_chain a w (Doc (out_doc e kws st))
           (Table csv_fieldnames (csv_row <$> matched_items st))) in Hall
    as (H1 & H2 & H3).
  rewrite H1. cbv zeta. rewrite H2, Hsorted, H3.
  rewrite notify_nothing by done. rewrite Hnew. eauto.
Qed.

Section Run.
Context (repr_seq : json → str).

Lemma main_plan_commit e a w :
  main repr_seq e a w =
  match plan repr_seq e a w with
  | Ok (kws, seen_keys, st) => commit e a kws seen_keys st w
  | Raise x => (Raise x, w)
  end.
Proof.
  unfold main, plan, run_inputs, commit, listing, load_seen_keys, save_seen_keys, out_doc.
  unfold mbind, M_bind, outcome_bind, lift, mret, M_ret, outcome_ret, load_state.
  destruct (load_keywords e (keywords a)) as [kws|]; [|done].
  destruct (http_post_json _ _) as [lj|]; [|done].
  destruct (attr_get lj _ _) as [res|]; [|done].
  destruct (attr_get res _ _) as [data|]; [|done].
  destruct (negb (path_exists (state a) w)).
  - simpl. destruct (iterate _) as [rows|]; [|done].
    destruct (rows_loop _ _ _ _ _ _) as [st|]; [|done].
    repeat case_match; by simplify_eq.
  - destruct (files w !! state a) as [[v| |]|]; simpl; try done.
    destruct (attr_get v _ _) as [listed|]; [|done]. simpl.
    destruct (py_set listed) as [seen|]; [|done]. simpl.
    destruct (iterate _) as [rows|]; [|done].
    destruct (rows_loop _ _ _ _ _ _) as [st|]; [|done].
    repeat case_match; by simplify_eq.
Qed.

Lemma run_inputs_Ok e a w kws seen rows :
  run_inputs e a w = Ok (kws, seen, rows) →
  load_keywords e (keywords a) = Ok kws
  ∧ (∃ data, listing e = Ok data ∧ iterate data = Ok rows)
  ∧ load_seen_keys (state a) w = (Ok seen, w) ∧ set_ok seen.
Proof.
  unfold run_inputs, mbind, outcome_bind.
  destruct (load_keywords _ _) as [kws'|]; [|done].
  destruct (listing e) as [data|]; [|done].
  destruct (load_seen_keys _ _).1 as [seen'|] eqn:Hseen; [|done].
  destruct (iterate data) as [rows'|] eqn:Hrows; [|done].
  intros [= -> -> ->]. split; [done|]. split; [eauto|].
  split; [by apply load_seen_keys_eta | by apply (load_seen_keys_ok (state a) w)].
Qed.

Lemma main_Ok e a w m n w' :
  main repr_seq e a w = (Ok (m, n), w') →
  ∃ kws seen rows st,
    run_inputs e a w = Ok (kws, seen, rows)
    ∧ rows_loop repr_seq e kws seen rows (LoopState [] [] None) = Ok st
    ∧ m = matched_items st ∧ n = new_matched_items st
    ∧ commit e a kws seen st w = (Ok (m, n), w').
Proof.
  rewrite main_plan_commit. unfold plan, mbind, outcome_bind.
  destruct (run_inputs e a w) as [[[kws seen] rows]|]; [|done].
  destruct (rows_loop _ _ _ _ _ _) as [st|] eqn:Hloop; [|done].
  intros Hcommit. exists kws, seen, rows, st.
  destruct (commit_Ok _ _ _ _ _ _ _ _ Hcommit) as ([= -> ->] & _). done.
Qed.

End Run.

(** ** The properties of a run *)

Section Claims.
Context (repr_seq : json → str).

(** C3. In every run that returns, [matched] is the list of the items of
    the rows that match, in the order of the rows of the listing, and
    [newly] is the sub-list of [matched], in the same order, of the items
    whose key is not in the ledger as it was loaded at the start. *)
Theorem run_result_order e a w matched newly w' :
  main repr_seq e a w = (Ok (matched, newly), w') →
  ∃ kws seen rows,
    run_inputs e a w = Ok (kws, seen, rows)
    ∧ load_seen_keys (state a) w = (Ok seen, w)
    ∧ collect (omap (row_item repr_seq e kws) rows) = Ok matched
    ∧ newly = filter (λ it, key it ∉ strs seen) matched
    ∧ newly `sublist_of` matched.
Proof.
  intros Hmain.
  destruct (main_Ok _ _ _ _ _ _ _ Hmain) as (kws & seen & rows & st & Hin & Hloop & -> & -> & _).
  destruct (run_inputs_Ok _ _ _ _ _ _ Hin) as (_ & _ & Hseen & _).
  destruct (rows_loop_Ok _ _ _ _ _ _ Hloop) as [Hitems Hnew].
  exists kws, seen, rows. repeat (split; [done|]).
  rewrite Hnew. apply sublist_filter.
Qed.


(** Two matching rows with the same key, not in the ledger as loaded: both
    items are matched and both are new, in the order of the rows. *)
Lemma same_key_rows_sublists e a w matched newly w'
    kws seen pre r1 mid r2 post it1 it2 :
  main repr_seq e a w = (Ok (matched, newly), w') →
  run_inputs e a w = Ok (kws, seen, pre ++ r1 :: mid ++ r2 :: post) →
  row_item repr_seq e kws r1 = Some (Ok it1) →
  row_item repr_seq e kws r2 = Some (Ok it2) →
  key it1 = key it2 →
  key it1 ∉ strs seen →
  [it1; it2] `sublist_of` matched ∧ [it1; it2] `sublist_of` newly.
Proof.
  intros Hmain Hin H1 H2 Hkey Hnew.
  destruct (main_Ok _ _ _ _ _ _ _ Hmain) as (kws' & seen' & rows & st & Hin' & Hloop & -> & -> & _).
  rewrite Hin in Hin'. injection Hin' as <- <- <-.
  destruct (rows_loop_Ok _ _ _ _ _ _ Hloop) as [Hitems Hnews].
  rewrite omap_app in Hitems. simpl in Hitems. rewrite H1, omap_app in Hitems.
  simpl in Hitems. rewrite H2 in Hitems.
  assert (Hsplit : ∀ (xs ys : list (outcome item)) its,
    collect (xs ++ ys) = Ok its →
    ∃ a b, collect xs = Ok a ∧ collect ys = Ok b ∧ its = a ++ b).
  { induction xs as [|x xs IH]; intros ys its; simpl.
    - intros H. by exists [], its.
    - unfold mbind, outcome_bind. destruct x as [it|]; [|done].
      destruct (collect (xs ++ ys)) as [its'|] eqn:Hc; [|done].
      intros [= <-]. destruct (IH _ _ Hc) as (a' & b & -> & -> & ->).
      by exists (it :: a'), b. }
  destruct (Hsplit _ _ _ Hitems) as (a1 & b1 & _ & Hb1 & Hm).
  simpl in Hb1. unfold mbind, outcome_bind in Hb1.
  match type of Hb1 with
  | match ?c with _ => _ end = _ => destruct c as [c1|] eqn:Hc1; [|done]
  end.
  injection Hb1 as <-.
  destruct (Hsplit _ _ _ Hc1) as (a2 & b2 & _ & Hb2 & ->).
  simpl in Hb2. unfold mbind, outcome_bind in Hb2.
  match type of Hb2 with
  | match ?c with _ => _ end = _ => destruct c as [c2|]; [|done]
  end.
  injection Hb2 as <-.
  assert (Hsub : [it1; it2] `sublist_of` matched_items st).
  { rewrite Hm. apply sublist_inserts_l. constructor.
    apply sublist_inserts_l. constructor. apply sublist_nil_l. }
  split; [done|]. rewrite Hnews. unfold unseen.
  replace [it1; it2] with (filter (λ it, key it ∉ strs seen) [it1; it2]).
  - by apply filter_sublist_mono.
  - rewrite !filter_cons, filter_nil.
    rewrite decide_True by done. rewrite decide_True by (by rewrite <- Hkey). done.
Qed.

End Claims.

Section Rows.
Context (repr_seq : json → str).

Lemma passed_over_row_item e kws row :
  passed_over row → row_item repr_seq e kws row = None.
Proof.
  intros [Hshort | (l & d & -> & Hlen & H5 & Htrue & Hnodict)].
  - destruct row as [| | | |l|]; try done. simpl in Hshort.
    destruct l as [|r0 [|r1 [|r2 [|r3 [|r4 [|r5 l]]]]]]; simpl in *; try done. lia.
  - destruct l as [|r0 [|r1 [|r2 [|r3 [|r4 [|r5 l]]]]]]; simpl in *; try lia.
    injection H5 as ->. rewrite Htrue.
    destruct (get_or_none (py "parameters") d) eqn:Hp; try done.
    by destruct (Hnodict d0).
Qed.

Lemma no_parameters_row_item e kws r0 r1 r2 r3 r4 r5 rest :
  no_parameters (JList (r0 :: r1 :: r2 :: r3 :: r4 :: r5 :: rest)) →
  row_item repr_seq e kws (JList (r0 :: r1 :: r2 :: r3 :: r4 :: r5 :: rest))
  = let subject := normalize_text (py_str repr_seq r4) in
    if bool_decide (match_keywords subject kws = []) then None
    else Some (detail ← http_post_json (detail_api e) (JDict []);
               Ok (Item (build_item_key repr_seq [])
                        (normalize_text (py_str repr_seq r0))
                        (normalize_text (py_str repr_seq r1))
                        (normalize_text (py_str repr_seq r2))
                        (normalize_text (py_str repr_seq r3))
                        subject (match_keywords subject kws) [] detail
                        (strftime (now_tw e)))).
Proof.
  intros (l & r & [= <-] & [= <-] & Hr5). unfold row_item.
  destruct Hr5 as [Hnot | (d & -> & Hfalse)].
  - destruct r5; try done. by destruct (Hnot d).
  - by rewrite Hfalse.
Qed.

(** C8, as the code has it. A row that is not a list of six entries or more,
    or whose sixth entry is a dict with a "parameters" that is true and not
    a dict, is passed over: the step of the loop for it raises nothing and
    leaves both lists as they were, and the lists the loop builds are the
    ones it builds without that row. A row of six entries or more whose
    sixth entry is not a dict, or is a dict whose "parameters" is missing
    or false, is not passed over: it is processed with empty detail
    parameters. When no keyword occurs in its subject the step leaves both
    lists as they were; otherwise the step requests the detail for the
    empty parameters, raises when the request fails, and else appends to
    the matched list an item with empty detail parameters and the key
    "None|None|None|None", which is new unless the ledger holds that
    key. *)
Theorem passed_over_row_skipped e kws seen row :
  (passed_over row →
   (∀ st, ∃ d, row_step repr_seq e kws seen row st
               = Ok (LoopState (matched_items st) (new_matched_items st) d))
   ∧ (∀ pre post st,
        lists_of (rows_loop repr_seq e kws seen (pre ++ row :: post) st)
        = lists_of (rows_loop repr_seq e kws seen (pre ++ post) st)))
  ∧ (no_parameters row →
     ∃ s, row_subject repr_seq row = Some s
       ∧ (match_keywords s kws = [] →
          ∀ st, lists_of (row_step repr_seq e kws seen row st)
                = Ok (matched_items st, new_matched_items st))
       ∧ (match_keywords s kws ≠ [] → detail_api e (JDict []) = None →
          ∀ st, row_step repr_seq e kws seen row st = Raise RequestException)
       ∧ (match_keywords s kws ≠ [] →
          ∀ answer, detail_api e (JDict []) = Some answer →
          ∃ it, key it = py "None|None|None|None" ∧ detail_params it = []
                ∧ subject it = s ∧ matched_keywords it = match_keywords s kws
                ∧ detail it = answer
                ∧ ∀ st, lists_of (row_step repr_seq e kws seen row st)
                        = Ok (matched_items st ++ [it],
                              new_matched_items st ++ unseen seen [it]))).
Proof.
  split.
  - intros Hrow. pose proof (passed_over_row_item e kws row Hrow) as Hnone. split.
    + intros st. pose proof (row_step_lists repr_seq e kws seen row st) as Hstep.
      rewrite Hnone in Hstep.
      destruct (row_step repr_seq e kws seen row st) as [[m n d]|x]; [|done].
      simpl in Hstep. injection Hstep as -> ->. by exists d.
    + intros pre post st. rewrite !rows_loop_lists, !omap_app. simpl.
      by rewrite Hnone.
  - intros Hrow. pose proof Hrow as (l & r & -> & H5 & _).
    destruct l as [|r0 [|r1 [|r2 [|r3 [|r4 [|r5 rest]]]]]]; try done.
    pose proof (no_parameters_row_item e kws _ _ _ _ _ _ _ Hrow) as Hitem.
    cbv zeta in Hitem.
    exists (normalize_text (py_str repr_seq r4)). split; [done|].
    split; [|split].
    + intros Hnone st. rewrite row_step_lists, Hitem. by rewrite bool_decide_true.
    + intros Hhits Hdown st.
      pose proof (row_step_lists repr_seq e kws seen
                    (JList (r0 :: r1 :: r2 :: r3 :: r4 :: r5 :: rest)) st) as Hstep.
      rewrite Hitem, bool_decide_false in Hstep by done.
      unfold http_post_json in Hstep. rewrite Hdown in Hstep.
      destruct (row_step _ _ _ _ _ _) as [st'|x]; [done|].
      cbn in Hstep. by injection Hstep as ->.
    + intros Hhits answer Hup. eexists (Item _ _ _ _ _ _ _ _ _ _).
      split; [|split; [|split; [|split; [|split]]]];
        [| | | | |intros st; rewrite row_step_lists, Hitem;
                  rewrite bool_decide_false by done;
                  unfold http_post_json; rewrite Hup; reflexivity];
        reflexivity.
Qed.

(** The second run of two against the same upstream and day builds the items
    of the first, with its own time stamp. *)
Lemma row_item_same_upstream e1 e2 kws row :
  detail_api e1 = detail_api e2 →
  row_item repr_seq e2 kws row
  = (λ r, it ← r; Ok (refetched (strftime (now_tw e2)) it))
    <$> row_item repr_seq e1 kws row.
Proof.
  intros Hd. unfold row_item. rewrite Hd.
  destruct row as [| | | |l|]; try done.
  destruct l as [|r0 [|r1 [|r2 [|r3 [|r4 [|r5 l]]]]]]; try done.
  destruct (if truthy _ then _ else _) as [| | | | |params]; try done.
  case_bool_decide; [done|]. simpl. f_equal.
  unfold mbind, outcome_bind. by destruct (http_post_json _ _).
Qed.

Lemma collect_same_upstream e1 e2 kws (rows : list json) :
  detail_api e1 = detail_api e2 →
  collect (omap (row_item repr_seq e2 kws) rows)
  = (its ← collect (omap (row_item repr_seq e1 kws) rows);
     Ok (refetched (strftime (now_tw e2)) <$> (its : list item))).
Proof.
  intros Hd. induction rows as [|row rows IH]; [done|].
  simpl. rewrite (row_item_same_upstream e1 e2) by done.
  destruct (row_item repr_seq e1 kws row) as [[it|x]|]; simpl; [|done|done].
  change (list_omap json (outcome item) ?f ?l) with (omap f l).
  rewrite IH. unfold mbind, outcome_bind.
  by destruct (collect (omap (row_item repr_seq e1 kws) rows)).
Qed.

Lemma row_item_fetched_at e kws row it :
  row_item repr_seq e kws row = Some (Ok it) → fetched_at_tw it = strftime (now_tw e).
Proof.
  unfold row_item.
  destruct row as [| | | |l|]; try done.
  destruct l as [|r0 [|r1 [|r2 [|r3 [|r4 [|r5 l]]]]]]; try done.
  destruct (if truthy _ then _ else _) as [| | | | |params]; try done.
  case_bool_decide; [done|]. unfold mbind, outcome_bind.
  destruct (http_post_json _ _); [|done]. by intros [= <-].
Qed.

Lemma collect_fetched_at e kws (rows : list json) (its : list item) :
  collect (omap (row_item repr_seq e kws) rows) = Ok its →
  Forall (λ it, fetched_at_tw it = strftime (now_tw e)) its.
Proof.
  revert its. induction rows as [|row rows IH]; intros its; simpl.
  - intros [= <-]. constructor.
  - destruct (row_item repr_seq e kws row) as [[it|x]|] eqn:Hrow; simpl; [|done|by apply IH].
    unfold mbind, outcome_bind. destruct (collect _) as [its'|]; [|done].
    intros [= <-]. constructor; [by apply (row_item_fetched_at e kws row) | by apply IH].
Qed.

Lemma listing_same_day e1 e2 :
  same_upstream_day e1 e2 → listing e2 = listing e1.
Proof.
  intros (_ & Hl & _ & Hy & Hm & Hd). unfold listing, roc_year.
  by rewrite Hl, Hy, Hm, Hd.
Qed.

End Rows.

Section Rerun.
Context (repr_seq : json → str).

Lemma rows_loop_total e kws seen (rows : list json) (its : list item) :
  collect (omap (row_item repr_seq e kws) rows) = Ok its →
  ∃ st, rows_loop repr_seq e kws seen rows (LoopState [] [] None) = Ok st
        ∧ matched_items st = its ∧ new_matched_items st = unseen seen its.
Proof.
  intros Hits.
  pose proof (rows_loop_lists repr_seq e kws seen rows (LoopState [] [] None)) as H.
  rewrite Hits in H. unfold mbind, outcome_bind in H. simpl in H.
  destruct (rows_loop _ _ _ _ _ _) as [st|]; [|done].
  simpl in H. injection H as H1 H2. by exists st.
Qed.

Lemma unseen_all_seen (seen : pyset) (its : list item) :
  Forall (λ it, key it ∈ strs seen) its → unseen seen its = [].
Proof.
  unfold unseen. induction 1 as [|it its Hit _ IH]; [done|].
  rewrite filter_cons, decide_False; [done|]. by intros Hnot.
Qed.

(** C1, as the code has it. When a run returned [m1] and a second run is
    made against the same upstream and the same day, from the world the first
    run left, the second run returns too: its list of new items is empty, it
    pushes nothing, and its matched list is [m1] item by item, each item
    carrying the time stamp of the second run in [fetched_at_tw]; the two
    matched lists are equal when the two time stamps are. *)
Theorem rerun_notifies_nothing e1 e2 a w0 w1 m1 n1 :
  main repr_seq e1 a w0 = (Ok (m1, n1), w1) →
  same_upstream_day e1 e2 →
  ∃ w2,
    main repr_seq e2 a w1
    = (Ok (refetched (strftime (now_tw e2)) <$> m1, []), w2)
    ∧ pushed w2 = pushed w1
    ∧ (strftime (now_tw e2) = strftime (now_tw e1) →
       refetched (strftime (now_tw e2)) <$> m1 = m1).
Proof.
  intros Hmain Hsame.
  destruct (main_Ok _ _ _ _ _ _ _ Hmain)
    as (kws & seen & rows & st & Hin & Hloop & -> & -> & Hcommit).
  destruct (run_inputs_Ok _ _ _ _ _ _ Hin) as (Hkws & (data & Hdata & Hrows) & Hseen & Hok).
  destruct (commit_Ok _ _ _ _ _ _ _ _ Hcommit) as (_ & _ & Hpaths & l & Hsorted & Hfile).
  destruct (rows_loop_Ok _ _ _ _ _ _ Hloop) as [Hitems _].
  assert (Hok' : set_ok (add_keys (matched_items st) seen))
    by (by rewrite add_keys_union).
  destruct (sorted_set_reload _ _ Hok' Hsorted) as (os & Hload & Hperm).
  set (t2 := strftime (now_tw e2)).
  set (seen' := PySet (strs (add_keys (matched_items st) seen)) os).
  (* what the second run works on *)
  assert (Hin2 : run_inputs e2 a w1 = Ok (kws, seen', rows)).
  { unfold run_inputs. destruct Hsame as (Ht & Hsame').
    unfold load_keywords in *. rewrite <- Ht, Hkws.
    rewrite (listing_same_day e1 e2), Hdata by (by split).
    rewrite (load_seen_keys_doc _ _ _ Hfile), Hload. simpl.
    unfold mbind, outcome_bind. by rewrite Hrows. }
  (* its loop *)
  assert (Hitems2 : collect (omap (row_item repr_seq e2 kws) rows)
                    = Ok (refetched t2 <$> matched_items st)).
  { rewrite (collect_same_upstream repr_seq e1 e2) by apply Hsame.
    by rewrite Hitems. }
  destruct (rows_loop_total e2 kws seen' rows _ Hitems2) as (st2 & Hloop2 & Hm2 & Hn2).
  assert (Hkeys : key <$> (refetched t2 <$> matched_items st) = key <$> matched_items st).
  { rewrite <- list_fmap_compose. by apply list_fmap_ext. }
  assert (Hnone : new_matched_items st2 = []).
  { rewrite Hn2. apply unseen_all_seen. apply Forall_forall. intros it Hit.
    unfold seen'. rewrite add_keys_union. simpl.
    apply elem_of_union_l, elem_of_list_to_set. rewrite <- Hkeys.
    by apply list_elem_of_fmap_2. }
  (* its writes *)
  assert (Hagain : ∃ l', sorted_set (add_keys (matched_items st2) seen') = Ok l').
  { rewrite add_keys_union, Hm2, Hkeys. unfold seen'. simpl.
    rewrite add_keys_union. simpl.
    replace (list_to_set (key <$> matched_items st)
             ∪ (list_to_set (key <$> matched_items st) ∪ strs seen))
      with (strs (add_keys (matched_items st) seen))
      by (rewrite add_keys_union; simpl; set_solver).
    by apply (sorted_set_again _ l). }
  destruct Hagain as [l' Hsorted2].
  destruct (commit_quiet e2 a kws seen' st2 w1 l' Hpaths Hsorted2 Hnone)
    as (w2 & Hcommit2 & Hpushed).
  exists w2. split; [|split; [done|]].
  - rewrite main_plan_commit. unfold plan. rewrite Hin2. simpl.
    unfold mbind at 1, outcome_bind at 1. rewrite Hloop2. simpl.
    by rewrite Hcommit2, Hm2.
  - intros Ht. fold t2 in Ht.
    pose proof (collect_fetched_at repr_seq e1 kws rows _ Hitems) as Hall.
    rewrite <- (list_fmap_id (matched_items st)) at 2.
    apply Forall_fmap_ext. eapply Forall_impl; [exact Hall|].
    intros [] Hf. simpl in Hf. unfold refetched. simpl. by rewrite Ht, Hf.
Qed.

End Rerun.

(** ** The properties at the data of the examples *)

Local Ltac by_compute :=
  match goal with |- ?P => apply (@bool_decide_unpack P _); vm_compute; exact I end.

Example normalize_text_lines :
  normalize_text (py " a" ++ CR ++ LF ++ py "b" ++ [9; 9; 0x3000] ++ py "c" ++ CR)
  = py "a b c".
Proof. reflexivity. Qed.

Example load_keywords_longest_first :
  load_keywords_lines [py "ab" ++ LF; py "# note" ++ LF; LF; py " abcd " ++ LF; py "cd"]
  = [py "abcd"; py "ab"; py "cd"].
Proof. reflexivity. Qed.

(** The scenario of the keyword 庫藏股 and the subject 公司進行庫藏股轉讓. *)
Example match_treasury :
  match_keywords (normalize_text subject_transfer) [kw_treasury] = [kw_treasury].
Proof. reflexivity. Qed.

Lemma match_keywords_exact_witness :
  kw_treasury ∈ match_keywords (normalize_text subject_transfer) [kw_treasury].
Proof.
  apply (match_keywords_exact subject_transfer [kw_treasury]).
  - left.
  - exists [0x516C; 0x53F8; 0x9032; 0x884C], [0x8F49; 0x8B93]. reflexivity.
Defined.

Lemma build_item_key_fields_witness :
  build_item_key repr_unused params_3004 = build_item_key repr_unused params_3004
  ∧ build_item_key repr_unused params_3004 ≠ build_item_key repr_unused params_serial_int.
Proof.
  split.
  - apply (build_item_key_fields repr_unused params_3004 params_3004). by intros f _.
  - apply (proj2 (build_item_key_fields repr_unused params_3004 params_serial_int))
      with (f := py "enterDate").
    + intros f Hf.
      repeat (apply elem_of_cons in Hf as [-> | Hf]; [split; by_compute|]).
      by apply elem_of_nil in Hf.
    + left.
    + by_compute.
Defined.

(** The claim of C2 on a difference in any one sub-field fails: an integer
    and the string of its digits give the same key, and so do two pairs of
    fields that place the bar differently. *)
Lemma build_item_key_collisions :
  (dict_get (py "serialNumber") params_serial_int
     ≠ dict_get (py "serialNumber") params_serial_text
   ∧ build_item_key repr_unused params_serial_int
     = build_item_key repr_unused params_serial_text)
  ∧ (dict_get (py "enterDate") params_bar_left
       ≠ dict_get (py "enterDate") params_bar_right
     ∧ build_item_key repr_unused params_bar_left
       = build_item_key repr_unused params_bar_right).
Proof. repeat split; try reflexivity; intros H; vm_compute in H; discriminate H. Qed.

Lemma load_seen_keys_absent_witness :
  path_exists state_path world0 = false
  ∧ load_seen_keys state_path world0 = (Ok (PySet ∅ []), world0).
Proof.
  split; [reflexivity|].
  apply (load_seen_keys_absent state_path world0). reflexivity.
Defined.



Example ledger_saved_sorted :
  (save_seen_keys state_path (PySet {[py "20260105|sii|2330|7"; key_3004]} []) world0).2
  = World {[ state_path := Doc ledger_doc ]} {[ py "public" ]} [].
Proof. by vm_compute. Qed.

(** The claim of C5 fails: the ledger of [world_ledger] loads, and after a
    save cut short between the open and the end of the dump it does not. *)
Lemma save_json_torn_ledger :
  (load_seen_keys state_path world_ledger).1 = Ok (PySet {[key_3004]} [])
  ∧ save_json_ops state_path ledger_doc
    = [MakeDirs (py "public"); OpenW state_path; JsonDump state_path ledger_doc]
  ∧ (load_state state_path
       (crash_after 2 (save_json_ops state_path ledger_doc) world_ledger)).1
    = Raise JSONDecodeError.
Proof. repeat split; by vm_compute. Qed.

Lemma save_json_in_place_witness :
  (load_state state_path
     (crash_after 2 (save_json_ops state_path ledger_doc) world_ledger)).1
  = Raise JSONDecodeError
  ∧ (load_state state_path
       (crash_after 3 (save_json_ops state_path ledger_doc) world_ledger)).1
    = Ok ledger_doc.
Proof.
  assert (Hdir : writable state_path world_ledger = true) by reflexivity.
  destruct (save_json_in_place state_path ledger_doc world_ledger Hdir)
    as (_ & Htorn & _ & Hdone).
  split; [exact Htorn|]. apply (Hdone 3%nat). lia.
Defined.

Lemma first_run :
  main repr_unused (env_of at_0905 [row_transfer]) args0 world0
  = (Ok ([item_transfer], [item_transfer]), world1).
Proof. by vm_compute. Qed.

(** A run on a ledger that holds the key of 3004: of the three rows that
    match, in the order of the listing, only the one of 2330 is new. *)
Lemma run_result_order_witness :
  ∃ kws seen rows,
    run_inputs (env_of at_0906 [row_buyback; row_other; row_2330; row_short; row_transfer])
               args0 world_ledger
    = Ok (kws, seen, rows)
    ∧ load_seen_keys (state args0) world_ledger = (Ok seen, world_ledger)
    ∧ collect (omap (row_item repr_unused
                       (env_of at_0906
                          [row_buyback; row_other; row_2330; row_short; row_transfer])
                       kws) rows)
      = Ok [item_of subject_buyback params_3004 key_3004 at_0906; item_2330;
            item_of subject_transfer params_3004 key_3004 at_0906]
    ∧ [item_2330]
      = filter (λ it, key it ∉ strs seen)
          [item_of subject_buyback params_3004 key_3004 at_0906; item_2330;
           item_of subject_transfer params_3004 key_3004 at_0906]
    ∧ [item_2330]
      `sublist_of` [item_of subject_buyback params_3004 key_3004 at_0906; item_2330;
                    item_of subject_transfer params_3004 key_3004 at_0906].
Proof.
  apply (run_result_order repr_unused
           (env_of at_0906 [row_buyback; row_other; row_2330; row_short; row_transfer])
           args0 world_ledger
           [item_of subject_buyback params_3004 key_3004 at_0906; item_2330;
            item_of subject_transfer params_3004 key_3004 at_0906]
           [item_2330]
           (main repr_unused
              (env_of at_0906 [row_buyback; row_other; row_2330; row_short; row_transfer])
              args0 world_ledger).2).
  by vm_compute.
Defined.


(** The claim of C8 fails for a row without detail parameters: the row is
    matched and new, under the key of four "None". *)
Lemma row_without_params_matched :
  lacks_params row_no_params
  ∧ rows_loop repr_unused (env_of at_0905 []) [kw_treasury] (PySet ∅ [])
      [row_no_params] (LoopState [] [] None)
    = Ok (LoopState
            [item_of subject_transfer [] (py "None|None|None|None") at_0905]
            [item_of subject_transfer [] (py "None|None|None|None") at_0905]
            (Some (py "115/01/04"))).
Proof.
  split; [|by vm_compute].
  intros l d params [= <-] H5. by vm_compute in H5.
Qed.

Lemma passed_over_row_skipped_witness :
  (passed_over row_short
   ∧ lists_of (rows_loop repr_unused (env_of at_0905 []) [kw_treasury] (PySet ∅ [])
                 ([row_transfer] ++ row_short :: [row_buyback]) (LoopState [] [] None))
     = lists_of (rows_loop repr_unused (env_of at_0905 []) [kw_treasury] (PySet ∅ [])
                   ([row_transfer] ++ [row_buyback]) (LoopState [] [] None)))
  ∧ (no_parameters row_no_params
     ∧ ∃ it, key it = py "None|None|None|None" ∧ detail_params it = []
             ∧ subject it = normalize_text subject_transfer
             ∧ ∀ st, lists_of (row_step repr_unused (env_of at_0905 []) [kw_treasury]
                                 (PySet ∅ []) row_no_params st)
                     = Ok (matched_items st ++ [it],
                           new_matched_items st ++ unseen (PySet ∅ []) [it])).
Proof.
  assert (Hshort : passed_over row_short) by (left; vm_compute; lia).
  assert (Hbare : no_parameters row_no_params).
  { eexists _, JNull. split; [reflexivity|]. split; [reflexivity|]. by left. }
  split.
  - split; [exact Hshort|].
    apply (proj1 (passed_over_row_skipped repr_unused (env_of at_0905 []) [kw_treasury]
                    (PySet ∅ []) row_short) Hshort).
  - split; [exact Hbare|].
    destruct (proj2 (passed_over_row_skipped repr_unused (env_of at_0905 []) [kw_treasury]
                       (PySet ∅ []) row_no_params) Hbare)
      as (s & [= <-] & _ & _ & Hmatch).
    destruct (Hmatch ltac:(by_compute) detail_3004 eq_refl)
      as (it & Hkey & Hparams & Hsubject & _ & _ & Hstep).
    exists it. done.
Defined.

(** The claim of C1 on the matched sequence fails: a second run a minute
    later on the same day finds nothing new, and its matched item is the
    item of the first run with another [fetched_at_tw]. *)
Lemma rerun_restamps_items :
  main repr_unused (env_of at_0905 [row_transfer]) args0 world0
  = (Ok ([item_transfer], [item_transfer]), world1)
  ∧ same_upstream_day (env_of at_0905 [row_transfer]) (env_of at_0906 [row_transfer])
  ∧ (main repr_unused (env_of at_0906 [row_transfer]) args0 world1).1
    = Ok ([item_of subject_transfer params_3004 key_3004 at_0906], [])
  ∧ [item_transfer] ≠ [item_of subject_transfer params_3004 key_3004 at_0906].
Proof.
  split; [by vm_compute|]. split; [by repeat split|]. split; [by vm_compute|].
  intros H. vm_compute in H. discriminate H.
Qed.

Lemma rerun_notifies_nothing_witness :
  ∃ w2,
    main repr_unused (env_of at_0906 [row_transfer]) args0 world1
    = (Ok (refetched (strftime (now_tw (env_of at_0906 [row_transfer])))
             <$> [item_transfer], []), w2)
    ∧ pushed w2 = pushed world1
    ∧ (strftime (now_tw (env_of at_0906 [row_transfer]))
       = strftime (now_tw (env_of at_0905 [row_transfer])) →
       refetched (strftime (now_tw (env_of at_0906 [row_transfer]))) <$> [item_transfer]
       = [item_transfer]).
Proof.
  apply (rerun_notifies_nothing repr_unused (env_of at_0905 [row_transfer])
           (env_of at_0906 [row_transfer]) args0 world0 world1
           [item_transfer] [item_transfer]).
  - by vm_compute.
  - by repeat split.
Defined.

(** * Further properties *)

(** ** Text normalization *)

Lemma lstrip_by_id (drop : N → bool) (s : str) :
  (∀ c, head s = Some c → drop c = false) → lstrip_by drop s = s.
Proof. destruct s as [|c s]; [done|]. intros H. simpl. by rewrite (H c). Qed.

Lemma rstrip_by_id (drop : N → bool) (s : str) :
  (∀ c, last s = Some c → drop c = false) → rstrip_by drop s = s.
Proof.
  intros H. unfold rstrip_by. rewrite lstrip_by_id, reverse_involutive; [done|].
  intros c. rewrite head_reverse. apply H.
Qed.

Lemma single_spaced_cons (c : N) (s : str) :
  single_spaced (c :: s) = true → single_spaced s = true.
Proof. simpl. by intros [_ ?]%andb_true_iff. Qed.

Lemma single_spaced_app_r (a b : str) :
  single_spaced (a ++ b) = true → single_spaced b = true.
Proof. induction a as [|c a IH]; [done|]. intros H. by apply IH, (single_spaced_cons c). Qed.

Lemma single_spaced_app_l (a b : str) :
  single_spaced (a ++ b) = true → single_spaced a = true.
Proof.
  induction a as [|c a IH]; [done|]. simpl.
  intros [Hc Hrest]%andb_true_iff. apply andb_true_iff. split; [|by apply IH].
  destruct a as [|d a]; simpl in *; [|done].
  destruct (is_space c); simpl in *; [|done].
  apply andb_true_iff in Hc as [-> _]. done.
Qed.

Lemma sub_spaces_head (s : str) : starts_solid (sub_spaces true s).
Proof.
  induction s as [|c s IH]; intros d; simpl; [done|].
  destruct (is_space c) eqn:Hc; [apply IH|]. by intros [= <-].
Qed.

Lemma sub_spaces_single_spaced (in_run : bool) (s : str) :
  single_spaced (sub_spaces in_run s) = true.
Proof.
  revert in_run. induction s as [|c s IH]; intros in_run; simpl; [done|].
  destruct (is_space c) eqn:Hc.
  - destruct in_run; [apply IH|]. simpl. rewrite IH, andb_true_r.
    pose proof (sub_spaces_head s) as Hhead.
    destruct (sub_spaces true s) as [|d t]; [done|].
    by rewrite (Hhead d).
  - simpl. by rewrite Hc, IH.
Qed.

Lemma sub_spaces_id (in_run : bool) (s : str) :
  single_spaced s = true → (in_run = true → starts_solid s) →
  sub_spaces in_run s = s.
Proof.
  revert in_run. induction s as [|c s IH]; intros in_run Hs Hrun; simpl; [done|].
  simpl in Hs. apply andb_true_iff in Hs as [Hc Hs].
  destruct (is_space c) eqn:Hsp; simpl in Hc.
  - destruct in_run; [by rewrite (Hrun eq_refl c) in Hsp|].
    apply andb_true_iff in Hc as [->%N.eqb_eq Hnext]. f_equal.
    apply IH; [done|]. intros _ d Hd. destruct s as [|d' s]; [done|].
    injection Hd as ->. by apply negb_true_iff.
  - f_equal. by apply IH.
Qed.

Lemma replace_absent (old new s : str) (c : N) :
  head old = Some c → c ∉ s → replace old new s = s.
Proof.
  intros Hold. destruct old as [|c' old]; [done|]. injection Hold as ->.
  unfold replace. induction s as [|d s IH]; [done|].
  intros [Hne Hs]%not_elem_of_cons. simpl.
  destruct (N.eqb_spec c d) as [->|_]; [done|]. simpl. by rewrite IH.
Qed.

Lemma single_spaced_no_cr (s : str) (c : N) :
  single_spaced s = true → is_space c = true → c ≠ 32 → c ∉ s.
Proof.
  intros Hs Hc Hne. induction s as [|d s IH]; [apply not_elem_of_nil|].
  simpl in Hs. apply andb_true_iff in Hs as [Hd Hs].
  apply not_elem_of_cons. split; [|by apply IH].
  intros ->. rewrite Hc in Hd. simpl in Hd.
  apply andb_true_iff in Hd as [Heq%N.eqb_eq _]. done.
Qed.

Lemma strip_sub_spaces_clean (s : str) :
  single_spaced (strip (sub_spaces false s)) = true
  ∧ starts_solid (strip (sub_spaces false s))
  ∧ ends_solid (strip (sub_spaces false s)).
Proof.
  unfold strip. set (t := sub_spaces false s).
  assert (Ht : single_spaced t = true) by apply sub_spaces_single_spaced.
  destruct (lstrip_by_split is_space t) as (ws & Hsplit & _ & Hhead).
  destruct (rstrip_by_split is_space (lstrip_by is_space t)) as (ws' & Hsplit' & _ & Hlast).
  assert (Hmid : single_spaced (lstrip_by is_space t) = true).
  { apply (single_spaced_app_r ws). by rewrite <- Hsplit. }
  split; [|split].
  - apply (single_spaced_app_l _ ws'). by rewrite <- Hsplit'.
  - intros c Hc. apply Hhead. rewrite Hsplit'. by rewrite head_app, Hc.
  - exact Hlast.
Qed.

Lemma clean_text_fixed (t : str) :
  single_spaced t = true → starts_solid t → ends_solid t → normalize_text t = t.
Proof.
  intros Hs Hhead Hlast. unfold normalize_text, strip.
  assert (Hcr : (13 : N) ∉ t) by (by apply single_spaced_no_cr).
  rewrite (replace_absent (CR ++ LF) LF t 13), (replace_absent CR LF t 13) by done.
  rewrite sub_spaces_id by done.
  rewrite lstrip_by_id by exact Hhead. by rewrite rstrip_by_id.
Qed.

(** X1. The text [normalize_text] returns holds no white space but single
    spaces between other code points: every white-space code point in it is
    a space followed by a code point that is not white space, and it neither
    starts nor ends with white space. *)
Theorem normalize_text_single_spaced (s : str) :
  single_spaced (normalize_text s) = true
  ∧ starts_solid (normalize_text s)
  ∧ ends_solid (normalize_text s).
Proof.
  unfold normalize_text.
  destruct (strip_sub_spaces_clean (replace CR LF (replace (CR ++ LF) LF s)))
    as (Hs & Hhead & Hlast).
  repeat split; assumption.
Qed.

(** X2. Normalizing twice is normalizing once. *)
Theorem normalize_text_idempotent (s : str) :
  normalize_text (normalize_text s) = normalize_text s.
Proof.
  unfold normalize_text at 2 3.
  destruct (strip_sub_spaces_clean (replace CR LF (replace (CR ++ LF) LF s)))
    as (Hs & Hhead & Hlast).
  by apply clean_text_fixed.
Qed.

(** ** Loading the keywords *)

Lemma keyword_lines_app (lines kws : list str) :
  keyword_lines lines kws = kws ++ kept_lines lines.
Proof.
  unfold kept_lines. revert kws. induction lines as [|line lines IH]; intros kws.
  - simpl. by rewrite app_nil_r.
  - cbn [keyword_lines]. rewrite fmap_cons, filter_cons.
    destruct (bool_decide (strip line = [])) eqn:He.
    { apply bool_decide_eq_true in He.
      rewrite decide_False by (by intros [? _]). apply IH. }
    apply bool_decide_eq_false in He.
    destruct (startswith (py "#") (strip line)) eqn:Hc.
    { rewrite decide_False by (by intros [_ ?]). apply IH. }
    rewrite decide_True by done. cbn [negb andb].
    rewrite IH. by rewrite <- app_assoc.
Qed.

Lemma insert_by_len_perm (k : str) (l : list str) : insert_by_len k l ≡ₚ k :: l.
Proof.
  induction l as [|h t IH]; simpl; [done|].
  destruct (length h <=? length k)%nat; [done|].
  rewrite IH. apply Permutation_swap.
Qed.

Lemma insert_by_len_sorted (k : str) (l : list str) :
  StronglySorted no_shorter l → StronglySorted no_shorter (insert_by_len k l).
Proof.
  induction 1 as [|h t Ht IH Hh]; simpl.
  - repeat constructor.
  - destruct (Nat.leb_spec (length h) (length k)) as [Hle | Hgt].
    + constructor; [by constructor|]. constructor; [done|].
      eapply Forall_impl; [exact Hh|]. unfold no_shorter. simpl. intros x Hx. lia.
    + constructor; [done|]. rewrite insert_by_len_perm. constructor; [|done].
      unfold no_shorter. lia.
Qed.

Lemma insert_by_len_stable (n : nat) (k : str) (l : list str) :
  filter (λ x, length x = n) (insert_by_len k l)
  = filter (λ x, length x = n) (k :: l).
Proof.
  induction l as [|h t IH]; [done|]. cbn [insert_by_len].
  destruct (Nat.leb_spec (length h) (length k)) as [Hle | Hgt]; [done|].
  unfold str in *.
  rewrite !filter_cons, !IH, !filter_cons.
  destruct (decide (length h = n)), (decide (length k = n)); try done. lia.
Qed.

Lemma sort_by_len_desc_spec (kws : list str) :
  sort_by_len_desc kws ≡ₚ kws
  ∧ StronglySorted no_shorter (sort_by_len_desc kws)
  ∧ ∀ n, filter (λ x, length x = n) (sort_by_len_desc kws)
         = filter (λ x, length x = n) kws.
Proof.
  unfold sort_by_len_desc. induction kws as [|k kws (Hperm & Hsorted & Hstable)]; simpl.
  - repeat split; constructor.
  - split; [|split].
    + by rewrite insert_by_len_perm, Hperm.
    + by apply insert_by_len_sorted.
    + intros n. rewrite insert_by_len_stable, !filter_cons, Hstable. done.
Qed.

(** X3. The keywords loaded from the lines of a file are the stripped lines
    that are neither blank nor comments, each as often as it occurs; they
    are ordered longest first, and keywords of equal length keep the order
    they have in the file. *)
Theorem load_keywords_lines_sorted (lines : list str) :
  load_keywords_lines lines ≡ₚ kept_lines lines
  ∧ StronglySorted no_shorter (load_keywords_lines lines)
  ∧ ∀ n, filter (λ k, length k = n) (load_keywords_lines lines)
         = filter (λ k, length k = n) (kept_lines lines).
Proof.
  unfold load_keywords_lines. rewrite keyword_lines_app, app_nil_l.
  apply sort_by_len_desc_spec.
Qed.

Lemma strip_solid (s : str) : starts_solid (strip s) ∧ ends_solid (strip s).
Proof.
  unfold strip.
  destruct (lstrip_by_split is_space s) as (ws & _ & _ & Hhead).
  destruct (rstrip_by_split is_space (lstrip_by is_space s)) as (ws' & Hsplit & _ & Hlast).
  split; [|exact Hlast].
  intros c Hc. apply Hhead. rewrite Hsplit. by rewrite head_app, Hc.
Qed.

(** X4. Every loaded keyword is non-empty, is not a comment, and neither
    starts nor ends with white space. *)
Theorem load_keywords_lines_wellformed (lines : list str) (k : str) :
  k ∈ load_keywords_lines lines →
  k ≠ [] ∧ startswith (py "#") k = false ∧ starts_solid k ∧ ends_solid k.
Proof.
  unfold load_keywords_lines. rewrite keyword_lines_app, app_nil_l.
  rewrite (proj1 (sort_by_len_desc_spec (kept_lines lines))). unfold kept_lines.
  intros [[Hne Hc] Hin]%list_elem_of_filter.
  apply list_elem_of_fmap in Hin as (line & -> & _).
  repeat split; try done; apply strip_solid.
Qed.

Lemma StronglySorted_sublist_of {A} (R : relation A) (l1 l2 : list A) :
  l1 `sublist_of` l2 → StronglySorted R l2 → StronglySorted R l1.
Proof.
  induction 1 as [|x l1 l2 Hsub IH|x l1 l2 Hsub IH]; intros Hs.
  - constructor.
  - apply StronglySorted_inv in Hs as [Hs Hx]. constructor; [by apply IH|].
    apply Forall_forall. intros y Hy. apply (proj1 (Forall_forall _ _) Hx).
    by apply (sublist_subseteq _ _ Hsub).
  - apply StronglySorted_inv in Hs as [Hs _]. by apply IH.
Qed.

(** X5. With the keywords of a keyword file, the hits of a subject are
    listed longest first. *)
Theorem hits_longest_first (lines : list str) (subject : str) :
  StronglySorted no_shorter (match_keywords subject (load_keywords_lines lines)).
Proof.
  apply (StronglySorted_sublist_of _ _ (load_keywords_lines lines)).
  - rewrite match_keywords_filter. apply sublist_filter.
  - unfold load_keywords_lines. apply sort_by_len_desc_spec.
Qed.

(** ** The identity key, further *)

Lemma dict_get_Some (k : str) (v : json) (d : dict) :
  NoDup d.*1 → (dict_get k d = Some v ↔ (k, v) ∈ d).
Proof.
  induction d as [|[k' v'] d IH]; simpl; intros Hnd.
  - split; [done | by intros ?%elem_of_nil].
  - apply NoDup_cons in Hnd as [Hk' Hnd]. case_bool_decide as Hk.
    + subst k'. split.
      * intros [= ->]. left.
      * intros [[= ->] | Hin]%elem_of_cons; [done|].
        exfalso. apply Hk'. apply list_elem_of_fmap. by exists (k, v).
    + rewrite (IH Hnd). split.
      * intros Hin. by right.
      * intros [[= -> ->] | Hin]%elem_of_cons; [done|done].
Qed.

Lemma dict_get_perm (k : str) (p q : dict) :
  NoDup p.*1 → p ≡ₚ q → dict_get k p = dict_get k q.
Proof.
  intros Hp Hperm.
  assert (Hq : NoDup q.*1) by (by rewrite <- Hperm).
  destruct (dict_get k p) as [v|] eqn:Hgp.
  - symmetry. apply (dict_get_Some k v q Hq). rewrite <- Hperm.
    by apply (dict_get_Some k v p Hp).
  - destruct (dict_get k q) as [v|] eqn:Hgq; [|done].
    apply (dict_get_Some k v q Hq) in Hgq. rewrite <- Hperm in Hgq.
    apply (dict_get_Some k v p Hp) in Hgq. congruence.
Qed.

Section KeyMore.
Context (repr_seq : json → str).

(** X6. The key does not depend on the order of the entries of the params
    dict: two dicts with the same entries, in any order, give the same key. *)
Theorem build_item_key_any_order (p q : dict) :
  NoDup p.*1 → p ≡ₚ q → build_item_key repr_seq p = build_item_key repr_seq q.
Proof.
  intros Hp Hperm. unfold build_item_key, get_or_none.
  by rewrite !(dict_get_perm _ p q Hp Hperm).
Qed.

(** X7. A missing sub-field raises nothing and enters the key as "None":
    params that hold none of the four sub-fields, whatever else they hold,
    all get the key "None|None|None|None". *)
Theorem build_item_key_missing_fields (p : dict) :
  (∀ f, f ∈ key_fields → dict_get f p = None) →
  build_item_key repr_seq p = py "None|None|None|None".
Proof.
  intros Hnone. unfold build_item_key, get_or_none.
  rewrite !(Hnone (py _)); [done | unfold key_fields; repeat constructor ..].
Qed.

End KeyMore.

(** ** Runs that stop before anything is written *)

Section Aborts.
Context (repr_seq : json → str).

Lemma main_plan_raises e a w x :
  plan repr_seq e a w = Raise x → main repr_seq e a w = (Raise x, w).
Proof. intros H. by rewrite main_plan_commit, H. Qed.

Lemma row_item_raises e kws row x :
  row_item repr_seq e kws row = Some (Raise x) → x = RequestException.
Proof.
  unfold row_item.
  destruct row as [| | | |l|]; try done.
  destruct l as [|r0 [|r1 [|r2 [|r3 [|r4 [|r5 l]]]]]]; try done.
  destruct (if truthy _ then _ else _) as [| | | | |params]; try done.
  case_bool_decide; [done|]. unfold http_post_json, mbind, outcome_bind.
  destruct (detail_api e _); [done|]. by intros [= <-].
Qed.

Lemma collect_raises e kws (rows : list json) row x :
  row ∈ rows → row_item repr_seq e kws row = Some (Raise x) →
  collect (omap (row_item repr_seq e kws) rows) = Raise RequestException.
Proof.
  intros Hin Hrow. induction rows as [|r rows IH]; [by apply elem_of_nil in Hin|].
  cbn [omap list_omap]. change (list_omap ?f ?l) with (omap f l).
  destruct (row_item repr_seq e kws r) as [[it|y]|] eqn:Hr.
  - apply elem_of_cons in Hin as [-> | Hin]; [congruence|].
    cbn [collect]. unfold mbind, outcome_bind. by rewrite IH.
  - by rewrite (row_item_raises e kws r y Hr).
  - apply elem_of_cons in Hin as [-> | Hin]; [congruence|]. by apply IH.
Qed.

(** X8. When the detail request of a matching row fails, the run raises and
    writes nothing: no output file, no ledger and no push, also for the rows
    whose detail had arrived before. *)
Theorem main_detail_failure e a w kws seen rows row x :
  run_inputs e a w = Ok (kws, seen, rows) →
  row ∈ rows →
  row_item repr_seq e kws row = Some (Raise x) →
  main repr_seq e a w = (Raise RequestException, w).
Proof.
  intros Hin Hrow Hfail. apply main_plan_raises. unfold plan. rewrite Hin.
  cbn [mbind outcome_bind].
  pose proof (rows_loop_lists repr_seq e kws seen rows (LoopState [] [] None)) as H.
  rewrite (collect_raises e kws rows row x Hrow Hfail) in H.
  destruct (rows_loop _ _ _ _ _ _) as [st|y]; [done|].
  cbn in H. by injection H as ->.
Qed.

(** X9. When the listing request fails, or its answer is not a dict holding
    a dict under "result", the run raises that exception and writes
    nothing. *)
Theorem main_listing_failure e a w kws x :
  load_keywords e (keywords a) = Ok kws →
  listing e = Raise x →
  main repr_seq e a w = (Raise x, w).
Proof.
  intros Hk Hl. apply main_plan_raises. unfold plan, run_inputs.
  by rewrite Hk, Hl.
Qed.

(** X10. When the state file exists and does not hold JSON text, the run
    raises [JSONDecodeError] after the listing request and writes nothing:
    the file is left as it is. *)
Theorem main_corrupt_ledger e a w kws data :
  load_keywords e (keywords a) = Ok kws →
  listing e = Ok data →
  (files w !! state a = Some Torn
   ∨ ∃ fieldnames rows, files w !! state a = Some (Table fieldnames rows)) →
  main repr_seq e a w = (Raise JSONDecodeError, w).
Proof.
  intros Hk Hl Hfile. apply main_plan_raises. unfold plan, run_inputs.
  rewrite Hk, Hl. cbn [mbind outcome_bind].
  unfold load_seen_keys, mbind, M_bind.
  by destruct Hfile as [Hf | (fs & rs & Hf)]; rewrite (load_state_file _ _ _ Hf).
Qed.

(** X11. When the keyword file does not exist, the run raises
    [FileNotFoundError] before any request and writes nothing. *)
Theorem main_no_keyword_file e a w :
  text_files e (keywords a) = None →
  main repr_seq e a w = (Raise FileNotFoundError, w).
Proof.
  intros Hk. apply main_plan_raises. unfold plan, run_inputs, load_keywords.
  by rewrite Hk.
Qed.

End Aborts.

(** ** The listing *)

Lemma listing_unfold (e : env) :
  listing e
  = (list_json ← http_post_json (list_api e) (list_payload e);
     result ← attr_get list_json (py "result") (JDict []);
     data ← attr_get result (py "data") (JList []);
     Ok (if truthy data then data else JList [])).
Proof. reflexivity. Qed.

(** X12. An answer to the listing request that has no "result", or whose
    "result" is a dict without "data" or with a "data" that is false
    (null, an empty list, ...), is a listing without rows; an answer that is
    not a dict raises [AttributeError]. *)
Theorem listing_without_rows (e : env) (resp : json) :
  list_api e (list_payload e) = Some resp →
  (∀ d, resp = JDict d →
        (dict_get (py "result") d = None
         ∨ ∃ r, dict_get (py "result") d = Some (JDict r)
                ∧ (dict_get (py "data") r = None
                   ∨ ∃ v, dict_get (py "data") r = Some v ∧ truthy v = false)) →
        listing e = Ok (JList []))
  ∧ ((∀ d, resp ≠ JDict d) → listing e = Raise AttributeError).
Proof.
  intros Hresp. rewrite listing_unfold. unfold http_post_json. rewrite Hresp.
  cbn [mbind outcome_bind]. split.
  - intros d -> [Hnone | (r & Hr & [Hnone | (v & Hv & Hfalse)])]; unfold attr_get.
    + by rewrite Hnone.
    + rewrite Hr. cbn [from_option mbind outcome_bind id]. by rewrite Hnone.
    + rewrite Hr. cbn [from_option mbind outcome_bind id]. rewrite Hv.
      cbn [from_option mbind outcome_bind id]. by rewrite Hfalse.
  - intros Hnot. destruct resp; try done. by destruct (Hnot d).
Qed.

(** ** Runs, further *)


Lemma omap_all_None {A B} (f : A → option B) (l : list A) :
  (∀ x, x ∈ l → f x = None) → omap f l = [].
Proof.
  induction l as [|x l IH]; [done|]. intros H. cbn [omap list_omap].
  rewrite (H x) by left. apply IH. intros y Hy. apply H. by right.
Qed.

Lemma filter_none {A} (P : A → Prop) `{!∀ x, Decision (P x)} (l : list A) :
  (∀ x, x ∈ l → ¬ P x) → filter P l = [].
Proof.
  induction l as [|x l IH]; [done|]. intros Hno.
  rewrite filter_cons_False by (apply Hno; left).
  apply IH. intros y Hy. apply Hno. by right.
Qed.

Lemma filter_all {A} (P : A → Prop) `{!∀ x, Decision (P x)} (l : list A) :
  (∀ x, x ∈ l → P x) → filter P l = l.
Proof.
  induction l as [|x l IH]; [done|]. intros Hall.
  rewrite filter_cons_True by (apply Hall; left).
  f_equal. apply IH. intros y Hy. apply Hall. by right.
Qed.

Section RunsMore.
Context (repr_seq : json → str).



Lemma row_item_no_hits e kws row :
  (∀ s, row_subject repr_seq row = Some s → ∀ k, k ∈ kws → ¬ substring k s) →
  row_item repr_seq e kws row = None.
Proof.
  unfold row_item, row_subject. intros Hno.
  destruct row as [| | | |l|]; try done.
  destruct l as [|r0 [|r1 [|r2 [|r3 [|r4 [|r5 l]]]]]]; try done.
  destruct (if truthy _ then _ else _) as [| | | | |params]; try done.
  rewrite bool_decide_true; [done|].
  rewrite match_keywords_filter.
  apply filter_none. intros k Hk Hc.
  apply (Hno _ eq_refl k Hk). apply contains_spec. by apply Is_true_true.
Qed.


(** X14. Rows in whose subject no keyword occurs cost no detail request: on
    a listing of such rows the loop leaves both lists as they were and
    raises nothing, whatever the detail endpoint would answer. *)
Theorem rows_without_hits_dropped e kws seen (rows : list json) st :
  (∀ row s, row ∈ rows → row_subject repr_seq row = Some s →
            ∀ k, k ∈ kws → ¬ substring k s) →
  lists_of (rows_loop repr_seq e kws seen rows st)
  = Ok (matched_items st, new_matched_items st).
Proof.
  intros Hno. rewrite rows_loop_lists, omap_all_None.
  - simpl. unfold unseen. by rewrite filter_nil, !app_nil_r.
  - intros row Hrow. apply row_item_no_hits. intros s Hs. by apply (Hno row).
Qed.

(** X15. With a keyword file that gives no keyword, a run that returns has
    matched nothing. *)
Theorem no_keywords_no_match e a w lines matched newly w' :
  text_files e (keywords a) = Some lines →
  kept_lines lines = [] →
  main repr_seq e a w = (Ok (matched, newly), w') →
  matched = [] ∧ newly = [].
Proof.
  intros Hfile Hkept Hmain.
  destruct (main_Ok _ _ _ _ _ _ _ Hmain) as (kws & seen & rows & st & Hin & Hloop & -> & -> & _).
  destruct (run_inputs_Ok _ _ _ _ _ _ Hin) as (Hkws & _).
  unfold load_keywords in Hkws. rewrite Hfile in Hkws. injection Hkws as <-.
  assert (Hnil : load_keywords_lines lines = []).
  { unfold load_keywords_lines. by rewrite keyword_lines_app, app_nil_l, Hkept. }
  rewrite Hnil in Hloop.
  pose proof (rows_loop_lists repr_seq e [] seen rows (LoopState [] [] None)) as H.
  rewrite Hloop, omap_all_None in H.
  - simpl in H. by injection H as -> ->.
  - intros row _. apply row_item_no_hits. intros s _ k Hk. by apply elem_of_nil in Hk.
Qed.

(** X16. On a first run, when no state file exists, every matched item is
    new. *)
Theorem first_run_all_new e a w matched newly w' :
  files w !! state a = None →
  main repr_seq e a w = (Ok (matched, newly), w') →
  newly = matched.
Proof.
  intros Hfile Hmain.
  destruct (main_Ok _ _ _ _ _ _ _ Hmain) as (kws & seen & rows & st & Hin & Hloop & -> & -> & _).
  destruct (run_inputs_Ok _ _ _ _ _ _ Hin) as (_ & _ & Hseen & _).
  destruct (rows_loop_Ok _ _ _ _ _ _ Hloop) as [_ ->].
  assert (Hempty : seen = PySet ∅ []).
  { unfold load_seen_keys, load_state, mbind, M_bind, lift in Hseen.
    rewrite Hfile in Hseen. destruct (negb _); [by injection Hseen as <-|done]. }
  subst seen.
  unfold unseen. apply filter_all. intros it _. apply not_elem_of_empty.
Qed.

End RunsMore.

(** ** The ledger across runs *)

Section LedgerMore.
Context (repr_seq : json → str).

Lemma run_saves_ledger e a w m n w' :
  main repr_seq e a w = (Ok (m, n), w') →
  ∃ seen os,
    load_seen_keys (state a) w = (Ok seen, w)
    ∧ load_seen_keys (state a) w'
      = (Ok (PySet (list_to_set (key <$> m) ∪ strs seen) os), w')
    ∧ os ≡ₚ others seen
    ∧ n = unseen seen m.
Proof.
  intros Hmain.
  destruct (main_Ok _ _ _ _ _ _ _ Hmain) as (kws & seen & rows & st & Hin & Hloop & -> & -> & Hcommit).
  destruct (run_inputs_Ok _ _ _ _ _ _ Hin) as (_ & _ & Hseen & Hok).
  destruct (commit_Ok _ _ _ _ _ _ _ _ Hcommit) as (_ & _ & _ & l & Hsorted & Hfile).
  destruct (rows_loop_Ok _ _ _ _ _ _ Hloop) as [_ Hnew].
  assert (Hok' : set_ok (add_keys (matched_items st) seen))
    by (by rewrite add_keys_union).
  destruct (sorted_set_reload _ _ Hok' Hsorted) as (os & Hload & Hperm).
  rewrite add_keys_union in Hload, Hperm. simpl in Hload, Hperm.
  exists seen, os. split; [done|]. split; [|done].
  rewrite (load_seen_keys_doc _ _ _ Hfile). by rewrite Hload.
Qed.

(** X17. No item is notified twice: after a run that returned, whatever the
    next run with the same state path finds upstream, none of its new items
    has the key of an item the first run matched, or a key the ledger
    already held. *)
Theorem never_notified_twice e1 e2 a1 a2 w0 w1 w2 m1 n1 m2 n2 seen it :
  state a1 = state a2 →
  load_seen_keys (state a1) w0 = (Ok seen, w0) →
  main repr_seq e1 a1 w0 = (Ok (m1, n1), w1) →
  main repr_seq e2 a2 w1 = (Ok (m2, n2), w2) →
  it ∈ n2 →
  (key it ∉ key <$> m1) ∧ (key it ∉ strs seen).
Proof.
  intros Hstate Hseen0 Hrun1 Hrun2 Hit.
  destruct (run_saves_ledger _ _ _ _ _ _ Hrun1) as (seen' & os & Hs0 & Hs1 & _ & _).
  rewrite Hseen0 in Hs0. injection Hs0 as <-.
  destruct (run_saves_ledger _ _ _ _ _ _ Hrun2) as (seen2 & os2 & Hs1' & _ & _ & ->).
  rewrite <- Hstate, Hs1 in Hs1'. injection Hs1' as <-.
  unfold unseen in Hit. apply list_elem_of_filter in Hit as [Hnot _]. simpl in Hnot.
  split.
  - intros Hin. apply Hnot. apply elem_of_union_l. by apply elem_of_list_to_set.
  - intros Hin. apply Hnot. by apply elem_of_union_r.
Qed.

(** X18. A ledger that holds an entry that is not a string (a number, a
    boolean or null) cannot be sorted together with a key: a run on such a
    ledger returns only when it matched nothing. *)
Theorem odd_ledger_entry_blocks_matches e a w matched newly w' seen :
  load_seen_keys (state a) w = (Ok seen, w) →
  others seen ≠ [] →
  main repr_seq e a w = (Ok (matched, newly), w') →
  matched = [].
Proof.
  intros Hseen Hodd Hmain.
  destruct (main_Ok _ _ _ _ _ _ _ Hmain) as (kws & seen' & rows & st & Hin & _ & -> & -> & Hcommit).
  destruct (run_inputs_Ok _ _ _ _ _ _ Hin) as (_ & _ & Hseen' & _).
  rewrite Hseen in Hseen'. injection Hseen' as <-.
  destruct (commit_Ok _ _ _ _ _ _ _ _ Hcommit) as (_ & _ & _ & l & Hsorted & _).
  rewrite add_keys_union in Hsorted. unfold sorted_set in Hsorted. simpl in Hsorted.
  assert (Hempty : list_to_set (key <$> matched_items st) ∪ strs seen = (∅ : gset str)).
  { destruct (others seen) as [|o1 [|o2 os]]; [done| |].
    - by case_bool_decide.
    - destruct (bool_decide _) eqn:Hb; [|done]. by apply bool_decide_eq_true in Hb. }
  destruct (matched_items st) as [|it its]; [done|].
  exfalso. apply (not_elem_of_empty (C := gset str) (key it)).
  rewrite <- Hempty. apply elem_of_union_l. simpl. apply elem_of_union_l.
  by apply elem_of_singleton.
Qed.

End LedgerMore.

(** ** Notifications *)

Lemma post_push_sent e c cred to text w :
  swallow (post_push e c cred to text) w
  = (Ok (), World (files w) (dirs w) (pushed w ++ sent_on e c cred to text)).
Proof.
  unfold swallow, post_push, sent_on. destruct w as [fs ds ps]. simpl.
  destruct (bool_decide (cred = []) || bool_decide (to = [])); [by rewrite app_nil_r|].
  destruct (delivers e c); [done|]. by rewrite app_nil_r.
Qed.

Lemma notify_cases e st w :
  notify e st w
  = if bool_decide (new_matched_items st = []) then (Ok (), w)
    else match last_speech_date st with
         | Some d => (Ok (), World (files w) (dirs w)
                                   (pushed w ++ pushes_of e (digest (new_matched_items st) d)))
         | None => (Raise NameError, w)
         end.
Proof.
  unfold notify. case_bool_decide; [done|].
  unfold mbind, M_bind, lift, telegram_notify, line_push.
  destruct (last_speech_date st) as [d|]; [|done].
  rewrite !post_push_sent. simpl. unfold pushes_of. by rewrite <- app_assoc.
Qed.

(** X19. The notification step sends nothing when there is no new item.
    Otherwise it builds one digest and offers it to Telegram and then to
    LINE: a channel without credential or recipient is skipped, a channel
    whose request fails is skipped too and does not keep the other from
    being served, the step raises nothing and changes no file. *)
Theorem notify_pushes e st w :
  (new_matched_items st = [] → notify e st w = (Ok (), w))
  ∧ (∀ d, new_matched_items st ≠ [] → last_speech_date st = Some d →
          notify e st w
          = (Ok (), World (files w) (dirs w)
                          (pushed w ++ pushes_of e (digest (new_matched_items st) d)))).
Proof.
  rewrite notify_cases. split.
  - intros Hnone. by rewrite bool_decide_true.
  - intros d Hnew Hd. by rewrite bool_decide_false, Hd.
Qed.

Lemma digest_join_lines (new : list item) (d : str) :
  digest new d = join LF (digest_lines new d).
Proof. unfold digest, digest_lines. by destruct (10 <? Z.of_nat (length new))%Z. Qed.

Lemma digest_lines_shape (new : list item) (d : str) :
  ∃ header rest,
    digest_lines new d = header :: (digest_line <$> take 10 new) ++ rest
    ∧ (length rest ≤ 1)%nat
    ∧ (rest = [] ↔ (length new ≤ 10)%nat).
Proof.
  unfold digest_lines.
  destruct (Z.ltb_spec 10 (Z.of_nat (length new))) as [Hlt | Hge].
  - eexists _, [_]. split; [by rewrite <- app_assoc|]. split; [done|].
    split; [done|lia].
  - eexists _, []. split; [by rewrite app_nil_r|]. split; [simpl; lia|].
    split; [lia|done].
Qed.

(** X20. The digest has a header line, a line for each of the first ten new
    items and, beyond ten items, a line counting the rest: at most twelve
    lines, however many items are new. *)
Theorem digest_bounded (new : list item) (d : str) :
  digest new d = join LF (digest_lines new d)
  ∧ length (digest_lines new d)
    = (1 + Nat.min 10 (length new) + (if (10 <? length new)%nat then 1 else 0))%nat
  ∧ (length (digest_lines new d) ≤ 12)%nat.
Proof.
  split; [apply digest_join_lines|].
  assert (Hlen : length (digest_lines new d)
    = (1 + Nat.min 10 (length new) + (if (10 <? length new)%nat then 1 else 0))%nat).
  { unfold digest_lines.
    destruct (Z.ltb_spec 10 (Z.of_nat (length new))) as [Hlt | Hge];
      destruct (Nat.ltb_spec 10 (length new)) as [Hlt' | Hge']; try lia.
    - rewrite !length_app, length_fmap, length_take. simpl. lia.
    - rewrite !length_app, length_fmap, length_take. simpl. lia. }
  split; [done|]. rewrite Hlen. destruct (10 <? length new)%nat; lia.
Qed.

(** ** What a run writes and pushes *)

Lemma notify_pushed e st w :
  pushed (notify e st w).2
  = pushed w ++ (if bool_decide (new_matched_items st = []) then []
                 else match last_speech_date st with
                      | Some d => pushes_of e (digest (new_matched_items st) d)
                      | None => []
                      end).
Proof.
  unfold notify. case_bool_decide as Hnew; [by rewrite app_nil_r|].
  unfold mbind, M_bind, lift, telegram_notify, line_push.
  destruct (last_speech_date st) as [d|]; [|by rewrite app_nil_r].
  rewrite !post_push_sent. simpl. unfold pushes_of. by rewrite <- app_assoc.
Qed.

Section Writes.
Context (repr_seq : json → str).

Lemma row_step_dated e kws seen row st st' :
  (new_matched_items st = [] ∨ is_Some (last_speech_date st)) →
  row_step repr_seq e kws seen row st = Ok st' →
  new_matched_items st' = [] ∨ is_Some (last_speech_date st').
Proof.
  intros Hst. unfold row_step.
  destruct row as [| | | |l|]; try (by intros [= <-]).
  destruct l as [|r0 [|r1 [|r2 [|r3 [|r4 [|r5 l]]]]]]; try (by intros [= <-]).
  destruct (if truthy _ then _ else _); try (intros [= <-]; simpl; eauto).
  case_bool_decide; [intros [= <-]; simpl; eauto|].
  unfold mbind, outcome_bind. destruct (http_post_json _ _); [|done].
  intros [= <-]. simpl. eauto.
Qed.

Lemma rows_loop_dated e kws seen (rows : list json) st st' :
  (new_matched_items st = [] ∨ is_Some (last_speech_date st)) →
  rows_loop repr_seq e kws seen rows st = Ok st' →
  new_matched_items st' = [] ∨ is_Some (last_speech_date st').
Proof.
  revert st. induction rows as [|row rows IH]; intros st Hst; simpl.
  - by intros [= <-].
  - unfold mbind, outcome_bind.
    destruct (row_step repr_seq e kws seen row st) as [st1|] eqn:Hstep; [|done].
    apply IH. by apply (row_step_dated e kws seen row st).
Qed.

End Writes.

Section WritesMore.
Context (repr_seq : json → str).

Lemma commit_files_frame e a kws seen st w p :
  p ≠ out_json a → p ≠ out_csv a → p ≠ state a →
  files (commit e a kws seen st w).2 !! p = files w !! p.
Proof.
  intros H1 H2 H3. rewrite commit_cases.
  assert (Hsaved : ∀ q f w0, p ≠ q → files (saved q f w0) !! p = files w0 !! p).
  { intros q f w0 Hq. unfold saved, set_file. simpl. by rewrite lookup_insert_ne. }
  destruct (writable (out_json a) w);
    [|cbn [snd]; by rewrite (proj1 (refusal_kept _ _))].
  cbv zeta.
  destruct (writable (out_csv a) _);
    [|cbn [snd]; by rewrite (proj1 (refusal_kept _ _)), Hsaved].
  destruct (sorted_set _) as [l|x]; [|cbn [snd]; by rewrite !Hsaved].
  destruct (writable (state a) _);
    [|cbn [snd]; by rewrite (proj1 (refusal_kept _ _)), !Hsaved].
  match goal with |- context [notify e st ?w3] =>
    pose proof (notify_files e st w3) as Hn;
    destruct (notify e st w3) as [[[]|x] w4] end;
    cbn [snd] in *; rewrite Hn; by rewrite !Hsaved.
Qed.

(** X21. A run writes to its three paths only: every other file is after the
    run what it was before, whether the run returns or raises. *)
Theorem main_writes_three_files e a w p :
  p ≠ out_json a → p ≠ out_csv a → p ≠ state a →
  files (main repr_seq e a w).2 !! p = files w !! p.
Proof.
  intros H1 H2 H3. rewrite main_plan_commit.
  destruct (plan repr_seq e a w) as [[[kws seen] st]|x]; [|done].
  by apply commit_files_frame.
Qed.

(** X22. A run that returns has written every matched item, new or already
    seen, to both output files: the JSON document holds the items in order
    and the two counts, and the table has the fixed header and one row for
    each item. *)
Theorem main_outputs e a w matched newly w' :
  main repr_seq e a w = (Ok (matched, newly), w') →
  out_json a ≠ out_csv a → out_json a ≠ state a → out_csv a ≠ state a →
  (∃ meta,
     files w' !! out_json a
     = Some (Doc (JDict [(py "meta", JDict meta);
                         (py "items", JList (item_json <$> matched))]))
     ∧ dict_get (py "matched_count") meta = Some (JInt (Z.of_nat (length matched)))
     ∧ dict_get (py "new_matched_count") meta = Some (JInt (Z.of_nat (length newly))))
  ∧ files w' !! out_csv a = Some (Table csv_fieldnames (csv_row <$> matched)).
Proof.
  intros Hmain H12 H13 H23.
  destruct (main_Ok _ _ _ _ _ _ _ Hmain) as (kws & seen & rows & st & _ & _ & -> & -> & Hcommit).
  rewrite commit_cases in Hcommit.
  destruct (writable (out_json a) w); [|done]. cbv zeta in Hcommit.
  destruct (writable (out_csv a) _); [|done].
  destruct (sorted_set _) as [l|x]; [|done].
  destruct (writable (state a) _); [|done].
  match type of Hcommit with context [notify e st ?w3] =>
    pose proof (notify_files e st w3) as Hn;
    destruct (notify e st w3) as [[[]|x] w4] end; [|done].
  injection Hcommit as <-. unfold saved, set_file in Hn. simpl in Hn. rewrite Hn.
  split.
  - eexists. split; [|split].
    + rewrite lookup_insert_ne, lookup_insert_ne, lookup_insert_eq by done.
      unfold out_doc. reflexivity.
    + reflexivity.
    + reflexivity.
  - by rewrite lookup_insert_ne, lookup_insert_eq.
Qed.

Lemma run_pushes e a w matched newly w' :
  main repr_seq e a w = (Ok (matched, newly), w') →
  (newly = [] → pushed w' = pushed w)
  ∧ (newly ≠ [] → ∃ d, pushed w' = pushed w ++ pushes_of e (digest newly d)).
Proof.
  intros Hmain.
  destruct (main_Ok _ _ _ _ _ _ _ Hmain) as (kws & seen & rows & st & _ & Hloop & -> & -> & Hcommit).
  assert (Hdated : new_matched_items st = [] ∨ is_Some (last_speech_date st)).
  { apply (rows_loop_dated repr_seq e kws seen rows (LoopState [] [] None)); [by left|done]. }
  rewrite commit_cases in Hcommit.
  destruct (writable (out_json a) w); [|done]. cbv zeta in Hcommit.
  destruct (writable (out_csv a) _); [|done].
  destruct (sorted_set _) as [l|x]; [|done].
  destruct (writable (state a) _); [|done].
  match type of Hcommit with context [notify e st ?w3] =>
    pose proof (notify_pushed e st w3) as Hn;
    destruct (notify e st w3) as [[[]|x] w4] end; [|done].
  injection Hcommit as <-. simpl in Hn. split.
  - intros Hnone. rewrite Hn, bool_decide_true by done. by rewrite app_nil_r.
  - intros Hsome. destruct Hdated as [? | [d Hd]]; [done|].
    exists d. by rewrite Hn, bool_decide_false, Hd.
Qed.

(** X23. The pushes of a run that returns: none when no item is new;
    otherwise one digest of the new items, offered to each channel. The
    matched items that were already seen are not in it. *)
Theorem main_pushes e a w matched newly w' :
  main repr_seq e a w = (Ok (matched, newly), w') →
  (newly = [] → pushed w' = pushed w)
  ∧ (newly ≠ [] → ∃ d, pushed w' = pushed w ++ pushes_of e (digest newly d)).
Proof. apply run_pushes. Qed.

(** C10, as the code has it. In a run that returns, when two rows of the
    listing both match, give the same key, and that key is not in the
    ledger as loaded, both their items are in [matched] and both are in
    [newly], in the order of the rows: the first does not hide the second.
    The run then pushes one digest of [newly], whose lines are a header,
    the lines of the first ten items of [newly] and, beyond ten items, one
    line that counts the rest: an item of [newly] past the tenth is
    counted, not listed. *)
Theorem same_key_rows_both_new e a w matched newly w'
    kws seen pre r1 mid r2 post it1 it2 :
  main repr_seq e a w = (Ok (matched, newly), w') →
  run_inputs e a w = Ok (kws, seen, pre ++ r1 :: mid ++ r2 :: post) →
  row_item repr_seq e kws r1 = Some (Ok it1) →
  row_item repr_seq e kws r2 = Some (Ok it2) →
  key it1 = key it2 →
  key it1 ∉ strs seen →
  [it1; it2] `sublist_of` matched ∧ [it1; it2] `sublist_of` newly
  ∧ ∃ d,
      pushed w' = pushed w ++ pushes_of e (digest newly d)
      ∧ digest newly d = join LF (digest_lines newly d)
      ∧ ∃ header rest,
          digest_lines newly d = header :: (digest_line <$> take 10 newly) ++ rest
          ∧ (length rest ≤ 1)%nat
          ∧ (rest = [] ↔ (length newly ≤ 10)%nat).
Proof.
  intros Hmain Hin H1 H2 Hkey Hnew.
  destruct (same_key_rows_sublists repr_seq _ _ _ _ _ _ _ _ _ _ _ _ _ _ _
              Hmain Hin H1 H2 Hkey Hnew) as [Hm Hn].
  split; [done|]. split; [done|].
  assert (Hsome : newly ≠ []).
  { intros ->. by apply sublist_nil_r in Hn. }
  destruct (proj2 (run_pushes _ _ _ _ _ _ Hmain) Hsome) as [d Hd].
  exists d. split; [done|]. split; [apply digest_join_lines|apply digest_lines_shape].
Qed.

(** X24. When one of the three paths has no directory part, the run raises
    and pushes nothing, whatever it matched. *)
Theorem main_bare_path e a w :
  dirname (out_json a) = [] ∨ dirname (out_csv a) = [] ∨ dirname (state a) = [] →
  ∃ x w', main repr_seq e a w = (Raise x, w') ∧ pushed w' = pushed w.
Proof.
  intros Hbare. rewrite main_plan_commit.
  destruct (plan repr_seq e a w) as [[[kws seen] st]|x]; [|eauto].
  rewrite commit_cases.
  destruct (writable (out_json a) w) eqn:H1;
    [|eexists _, _; split; [done|apply refusal_kept]]. cbv zeta.
  destruct (writable (out_csv a) _) eqn:H2;
    [|eexists _, _; split; [done|by rewrite (proj2 (refusal_kept _ _))]].
  destruct (sorted_set _) as [l|x]; [|eauto].
  destruct (writable (state a) _) eqn:H3;
    [|eexists _, _; split; [done|by rewrite (proj2 (refusal_kept _ _))]].
  apply writable_parts in H1 as [H1 _], H2 as [H2 _], H3 as [H3 _].
  by destruct Hbare as [? | [? | ?]].
Qed.


End WritesMore.

Section Channels.
Context (repr_seq : json → str).

Lemma rows_loop_with_channels e env' del' kws seen (rows : list json) st :
  rows_loop repr_seq (with_channels e env' del') kws seen rows st
  = rows_loop repr_seq e kws seen rows st.
Proof.
  revert st. induction rows as [|row rows IH]; intros st; [done|].
  cbn [rows_loop].
  change (row_step repr_seq (with_channels e env' del') kws seen row st)
    with (row_step repr_seq e kws seen row st).
  destruct (row_step repr_seq e kws seen row st) as [st1|]; [|done].
  cbn [mbind outcome_bind]. apply IH.
Qed.

Lemma plan_with_channels e env' del' a w :
  plan repr_seq (with_channels e env' del') a w = plan repr_seq e a w.
Proof.
  unfold plan.
  change (run_inputs (with_channels e env' del') a w) with (run_inputs e a w).
  destruct (run_inputs e a w) as [[[kws seen] rows]|]; [|done].
  cbn [mbind outcome_bind]. by rewrite rows_loop_with_channels.
Qed.

(** X26. What a run returns or raises, and what it writes, does not depend
    on the push channels: with other credentials, recipients or channel
    failures the outcome and the files are the same. *)
Theorem main_ignores_channels e env' del' a w :
  (main repr_seq (with_channels e env' del') a w).1 = (main repr_seq e a w).1
  ∧ files (main repr_seq (with_channels e env' del') a w).2
    = files (main repr_seq e a w).2.
Proof.
  rewrite !main_plan_commit, plan_with_channels.
  destruct (plan repr_seq e a w) as [[[kws seen] st]|x]; [|done].
  rewrite !commit_cases.
  change (out_doc (with_channels e env' del') kws st) with (out_doc e kws st).
  destruct (writable (out_json a) w); [|done]. cbv zeta.
  destruct (writable (out_csv a) _); [|done].
  destruct (sorted_set _) as [l|x]; [|done].
  destruct (writable (state a) _); [|done].
  rewrite !notify_cases. case_bool_decide; [done|].
  by destruct (last_speech_date st).
Qed.

End Channels.

(** ** Saving and loading, further *)


Lemma set_add_all_unhashable (l : list json) (x : json) (s : pyset) :
  x ∈ l → is_scalar x = false → (∀ k, x ≠ JStr k) →
  set_add_all l s = Raise TypeError.
Proof.
  intros Hin Hx Hnostr. revert s. induction l as [|y l IH]; intros s.
  - by apply elem_of_nil in Hin.
  - cbn [set_add_all]. unfold mbind, outcome_bind.
    apply elem_of_cons in Hin as [<- | Hin].
    + destruct x as [| | |k| |]; try done. by destruct (Hnostr k).
    + destruct (set_add y s) as [s'|e] eqn:Hadd; [by apply IH|].
      unfold set_add in Hadd. destruct y; by simplify_eq.
Qed.

(** X28. Loading the ledger from a state file: a dict without "seen_keys"
    gives the empty set; a document that is not a dict raises
    [AttributeError]; a list of keys that holds a list or a dict raises
    [TypeError]; a file that does not hold JSON text raises
    [JSONDecodeError]. The file is left as it is in each case. *)
Theorem load_seen_keys_edges (path : str) (w : world) :
  (∀ d, files w !! path = Some (Doc (JDict d)) →
        dict_get (py "seen_keys") d = None →
        load_seen_keys path w = (Ok (PySet ∅ []), w))
  ∧ (∀ v, files w !! path = Some (Doc v) → (∀ d, v ≠ JDict d) →
          load_seen_keys path w = (Raise AttributeError, w))
  ∧ (∀ d l x, files w !! path = Some (Doc (JDict d)) →
              dict_get (py "seen_keys") d = Some (JList l) →
              x ∈ l → is_scalar x = false → (∀ s, x ≠ JStr s) →
              load_seen_keys path w = (Raise TypeError, w))
  ∧ (files w !! path = Some Torn → load_seen_keys path w = (Raise JSONDecodeError, w)).
Proof.
  unfold load_seen_keys, mbind, M_bind, lift.
  split; [|split; [|split]].
  - intros d Hf Hnone. rewrite (load_state_file _ _ _ Hf).
    unfold attr_get. by rewrite Hnone.
  - intros v Hf Hnot. rewrite (load_state_file _ _ _ Hf).
    destruct v; try done. by destruct (Hnot d).
  - intros d l x Hf Hsome Hin Hx Hnostr. rewrite (load_state_file _ _ _ Hf).
    unfold attr_get. rewrite Hsome.
    cbn [from_option id]. rewrite py_set_list.
    by rewrite (set_add_all_unhashable l x).
  - intros Hf. by rewrite (load_state_file _ _ _ Hf).
Qed.

Section LedgerFile.
Context (repr_seq : json → str).


End LedgerFile.

(** ** The further properties at the data of the examples *)

Lemma load_keywords_lines_wellformed_witness :
  kw_treasury ≠ [] ∧ startswith (py "#") kw_treasury = false
  ∧ starts_solid kw_treasury ∧ ends_solid kw_treasury.
Proof.
  apply (load_keywords_lines_wellformed [py "# stock" ++ LF; kw_treasury ++ LF] kw_treasury).
  by_compute.
Defined.

Lemma build_item_key_any_order_witness :
  build_item_key repr_unused params_3004
  = build_item_key repr_unused (reverse params_3004).
Proof.
  apply (build_item_key_any_order repr_unused params_3004 (reverse params_3004)).
  - by_compute.
  - symmetry. apply reverse_Permutation.
Defined.

Lemma build_item_key_missing_fields_witness :
  build_item_key repr_unused [(py "apiName", JStr (py "t05st02_detail"))]
  = py "None|None|None|None".
Proof.
  apply (build_item_key_missing_fields repr_unused).
  intros f Hf. unfold key_fields in Hf.
  repeat (apply elem_of_cons in Hf as [-> | Hf]; [reflexivity|]).
  by apply elem_of_nil in Hf.
Defined.

Lemma main_detail_failure_witness :
  main repr_unused (env_detail_down [row_other; row_transfer]) args0 world0
  = (Raise RequestException, world0).
Proof.
  apply (main_detail_failure repr_unused (env_detail_down [row_other; row_transfer])
           args0 world0 [kw_treasury] (PySet ∅ []) [row_other; row_transfer]
           row_transfer RequestException).
  - by vm_compute.
  - right. left.
  - by vm_compute.
Defined.

Lemma main_listing_failure_witness :
  main repr_unused env_listing_down args0 world0 = (Raise RequestException, world0).
Proof.
  apply (main_listing_failure repr_unused env_listing_down args0 world0 [kw_treasury]).
  - by vm_compute.
  - by vm_compute.
Defined.

Lemma main_corrupt_ledger_witness :
  main repr_unused (env_of at_0905 [row_transfer]) args0 world_torn
  = (Raise JSONDecodeError, world_torn).
Proof.
  apply (main_corrupt_ledger repr_unused (env_of at_0905 [row_transfer]) args0 world_torn
           [kw_treasury] (JList [row_transfer])).
  - by vm_compute.
  - by vm_compute.
  - left. by vm_compute.
Defined.

Lemma main_no_keyword_file_witness :
  main repr_unused env_no_keyword_file args0 world0 = (Raise FileNotFoundError, world0).
Proof.
  apply (main_no_keyword_file repr_unused env_no_keyword_file args0 world0). reflexivity.
Defined.

Lemma listing_without_rows_witness : listing env_no_result = Ok (JList []).
Proof.
  apply (proj1 (listing_without_rows env_no_result (JDict [(py "code", JInt 200)]) eq_refl)
           [(py "code", JInt 200)] eq_refl).
  left. reflexivity.
Defined.


Lemma rows_without_hits_dropped_witness :
  lists_of (rows_loop repr_unused (env_detail_down []) [kw_treasury] (PySet ∅ [])
              [row_other; row_short] (LoopState [] [] None))
  = Ok ([], []).
Proof.
  apply (rows_without_hits_dropped repr_unused (env_detail_down []) [kw_treasury]
           (PySet ∅ []) [row_other; row_short] (LoopState [] [] None)).
  intros row s Hrow Hs k Hk Hsub. apply contains_spec in Hsub.
  apply list_elem_of_singleton in Hk as ->.
  apply elem_of_cons in Hrow as [-> | Hrow].
  - injection Hs as <-. by vm_compute in Hsub.
  - apply list_elem_of_singleton in Hrow as ->. discriminate Hs.
Defined.

Lemma no_keywords_no_match_witness : ([] : list item) = [] ∧ ([] : list item) = [].
Proof.
  apply (no_keywords_no_match repr_unused env_blank_keywords args0 world0
           [LF; py "# none" ++ LF] [] []
           (main repr_unused env_blank_keywords args0 world0).2).
  - reflexivity.
  - by vm_compute.
  - by vm_compute.
Defined.

Lemma first_run_all_new_witness : [item_transfer] = [item_transfer].
Proof.
  apply (first_run_all_new repr_unused (env_of at_0905 [row_transfer]) args0 world0
           [item_transfer] [item_transfer] world1).
  - reflexivity.
  - by vm_compute.
Defined.

Lemma never_notified_twice_witness :
  (key item_2330 ∉ key <$> [item_transfer]) ∧ (key item_2330 ∉ strs (PySet ∅ [])).
Proof.
  apply (never_notified_twice repr_unused
           (env_of at_0905 [row_transfer]) (env_of at_0906 [row_transfer; row_2330])
           args0 args0 world0 world1
           (main repr_unused (env_of at_0906 [row_transfer; row_2330]) args0 world1).2
           [item_transfer] [item_transfer]
           [item_of subject_transfer params_3004 key_3004 at_0906; item_2330] [item_2330]
           (PySet ∅ []) item_2330).
  - reflexivity.
  - by vm_compute.
  - by vm_compute.
  - by vm_compute.
  - left.
Defined.

Lemma odd_ledger_entry_blocks_matches_witness : ([] : list item) = [].
Proof.
  apply (odd_ledger_entry_blocks_matches repr_unused (env_of at_0905 [row_other]) args0
           world_odd_ledger [] []
           (main repr_unused (env_of at_0905 [row_other]) args0 world_odd_ledger).2
           (PySet ∅ [JInt 1])).
  - by vm_compute.
  - done.
  - by vm_compute.
Defined.

Lemma notify_pushes_witness :
  notify env_telegram_down state_one_new world0
  = (Ok (), World (files world0) (dirs world0)
                  (pushed world0
                   ++ pushes_of env_telegram_down (digest [item_transfer] (py "115/01/04")))).
Proof.
  apply (proj2 (notify_pushes env_telegram_down state_one_new world0) (py "115/01/04")).
  - done.
  - reflexivity.
Defined.

Example line_served_when_telegram_fails :
  chan <$> pushed (notify env_telegram_down state_one_new world0).2 = [Line].
Proof. by vm_compute. Qed.

Lemma main_writes_three_files_witness :
  files (main repr_unused (env_of at_0905 [row_transfer]) args0 world_ledger).2
    !! py "public/index.html"
  = files world_ledger !! py "public/index.html".
Proof.
  apply (main_writes_three_files repr_unused (env_of at_0905 [row_transfer]) args0
           world_ledger (py "public/index.html")); by_compute.
Defined.

Lemma main_outputs_witness :
  (∃ meta,
     files world1 !! out_json args0
     = Some (Doc (JDict [(py "meta", JDict meta);
                         (py "items", JList (item_json <$> [item_transfer]))]))
     ∧ dict_get (py "matched_count") meta
       = Some (JInt (Z.of_nat (length [item_transfer])))
     ∧ dict_get (py "new_matched_count") meta
       = Some (JInt (Z.of_nat (length [item_transfer]))))
  ∧ files world1 !! out_csv args0
    = Some (Table csv_fieldnames (csv_row <$> [item_transfer])).
Proof.
  apply (main_outputs repr_unused (env_of at_0905 [row_transfer]) args0 world0
           [item_transfer] [item_transfer] world1).
  - by vm_compute.
  - by_compute.
  - by_compute.
  - by_compute.
Defined.

Lemma main_pushes_witness :
  ([item_transfer] = [] → pushed world1 = pushed world0)
  ∧ ([item_transfer] ≠ [] →
     ∃ d, pushed world1
          = pushed world0
            ++ pushes_of (env_of at_0905 [row_transfer]) (digest [item_transfer] d)).
Proof.
  apply (main_pushes repr_unused (env_of at_0905 [row_transfer]) args0 world0
           [item_transfer] [item_transfer] world1).
  by vm_compute.
Defined.

Lemma same_key_rows_both_new_witness :
  [item_transfer; item_buyback] `sublist_of` [item_transfer; item_buyback]
  ∧ [item_transfer; item_buyback] `sublist_of` [item_transfer; item_buyback]
  ∧ ∃ d,
      pushed (main repr_unused (env_of at_0905 [row_transfer; row_short; row_buyback])
                   args0 world0).2
      = pushed world0
        ++ pushes_of (env_of at_0905 [row_transfer; row_short; row_buyback])
             (digest [item_transfer; item_buyback] d)
      ∧ digest [item_transfer; item_buyback] d
        = join LF (digest_lines [item_transfer; item_buyback] d)
      ∧ ∃ header rest,
          digest_lines [item_transfer; item_buyback] d
          = header :: (digest_line <$> take 10 [item_transfer; item_buyback]) ++ rest
          ∧ (length rest ≤ 1)%nat
          ∧ (rest = [] ↔ (length [item_transfer; item_buyback] ≤ 10)%nat).
Proof.
  apply (same_key_rows_both_new repr_unused
           (env_of at_0905 [row_transfer; row_short; row_buyback]) args0 world0
           [item_transfer; item_buyback] [item_transfer; item_buyback]
           (main repr_unused (env_of at_0905 [row_transfer; row_short; row_buyback])
                 args0 world0).2
           [kw_treasury] (PySet ∅ []) [] row_transfer [row_short] row_buyback []
           item_transfer item_buyback).
  - by vm_compute.
  - by vm_compute.
  - by vm_compute.
  - by vm_compute.
  - reflexivity.
  - apply not_elem_of_empty.
Defined.

(** The claim of C10 on the digest fails: of eleven rows that match under
    one key that the ledger does not hold, all eleven items are new, and
    the digest the run pushes lists the first ten and counts the eleventh:
    the line of the eleventh item occurs in no push. *)
Lemma eleventh_row_not_in_digest :
  main repr_unused (env_of at_0905 (replicate 10 row_transfer ++ [row_buyback]))
       args0 world0
  = (Ok (replicate 10 item_transfer ++ [item_buyback],
         replicate 10 item_transfer ++ [item_buyback]),
     (main repr_unused (env_of at_0905 (replicate 10 row_transfer ++ [row_buyback]))
           args0 world0).2)
  ∧ key item_buyback = key item_transfer
  ∧ chan <$> pushed (main repr_unused
                       (env_of at_0905 (replicate 10 row_transfer ++ [row_buyback]))
                       args0 world0).2
    = [Telegram; Line]
  ∧ Forall (λ p, contains (digest_line item_buyback) (text p) = false
                 ∧ contains (digest_line item_transfer) (text p) = true)
      (pushed (main repr_unused
                 (env_of at_0905 (replicate 10 row_transfer ++ [row_buyback]))
                 args0 world0).2).
Proof.
  split; [by vm_compute|]. split; [reflexivity|]. split; [by vm_compute|].
  apply Forall_forall. intros p Hp. vm_compute in Hp.
  repeat (apply elem_of_cons in Hp as [-> | Hp]; [split; by vm_compute|]).
  by apply elem_of_nil in Hp.
Qed.

Lemma main_bare_path_witness :
  ∃ x w',
    main repr_unused (env_of at_0905 [row_transfer]) args_bare_state world0 = (Raise x, w')
    ∧ pushed w' = pushed world0.
Proof.
  apply (main_bare_path repr_unused (env_of at_0905 [row_transfer]) args_bare_state world0).
  right. right. reflexivity.
Defined.



Lemma load_seen_keys_edges_witness :
  load_seen_keys state_path world_no_seen_keys = (Ok (PySet ∅ []), world_no_seen_keys)
  ∧ load_seen_keys state_path world_list_state = (Raise AttributeError, world_list_state)
  ∧ load_seen_keys state_path world_nested_ledger = (Raise TypeError, world_nested_ledger)
  ∧ load_seen_keys state_path world_torn = (Raise JSONDecodeError, world_torn).
Proof.
  split; [|split; [|split]].
  - apply (proj1 (load_seen_keys_edges state_path world_no_seen_keys)
             [(py "version", JInt 1)]); reflexivity.
  - apply (proj1 (proj2 (load_seen_keys_edges state_path world_list_state)) (JList []));
      [reflexivity | done].
  - apply (proj1 (proj2 (proj2 (load_seen_keys_edges state_path world_nested_ledger)))
             [(py "seen_keys", JList [JStr key_3004; JList []])]
             [JStr key_3004; JList []] (JList [])); try reflexivity; try done.
    right. left.
  - apply (proj2 (proj2 (proj2 (load_seen_keys_edges state_path world_torn)))). reflexivity.
Defined.

